(** * The HTTP client / interceptor layer and the feature components

    A shallow embedding of the TypeScript sources of the Angular front end:
    [NotificationService], [HttpErrorInterceptor], [ApiService], [AtsService],
    [ImageService], [AtsAnalyzerComponent], [ImageGenerationComponent],
    [ResumeFormComponent] and [ResumeGeneratorComponent].

    Strings are [string], read as sequences of code units below 256;
    JavaScript numbers that hold HTTP statuses and array indices are [Z];
    durations and instants in milliseconds are [N];
    arrays are lists.  An observable is modelled by what one subscription to
    it yields over time (module [Rx]). *)

From Stdlib Require Import String Ascii List ZArith NArith Lia Bool DecimalString.
From Stdlib Require Import QArith.
Close Scope Q_scope.
Import ListNotations.
Local Open Scope string_scope.
Local Open Scope list_scope.

(** ** JavaScript primitives the sources rely on *)
Module Js.

(** A string is truthy unless it is empty. *)
Definition truthy (s : string) : bool := negb (s =? "").

(** [a || b] where [a] is a string or [undefined]. *)
Definition or_else (a : option string) (b : string) : string :=
  match a with
  | Some s => if truthy s then s else b
  | None => b
  end.

(** [`${n}`] for an integral number. *)
Definition number_to_string (n : Z) : string :=
  NilZero.string_of_int (Z.to_int n).

(** [arr.splice(start, 1)] for an integral [start]: a negative start counts
    from the end, a start beyond the end removes nothing. *)
Definition splice1 {A : Type} (start : Z) (arr : list A) : list A :=
  let len := Z.of_nat (length arr) in
  let actual := if (start <? 0)%Z then Z.max (len + start) 0 else Z.min start len in
  let i := Z.to_nat actual in
  firstn i arr ++ skipn (S i) arr.

(** [arr[i]] for an integral [i]; [None] is [undefined]. *)
Definition index {A : Type} (arr : list A) (i : Z) : option A :=
  if (i <? 0)%Z then None else nth_error arr (Z.to_nat i).

(** [arr[i] = x] for an index that is in range. *)
Fixpoint set_nth {A : Type} (arr : list A) (i : nat) (x : A) : list A :=
  match arr, i with
  | [], _ => []
  | _ :: tl, O => x :: tl
  | hd :: tl, S j => hd :: set_nth tl j x
  end.

(** The white space [trim()] strips.  A character of a [string] of this
    development is a code unit below 256; among those [trim()] strips tab
    (9), line feed (10), vertical tab (11), form feed (12), carriage return
    (13), space (32) and no-break space (160).  The other white space of
    JavaScript (U+FEFF, U+2028, U+2029 and the space separators from U+1680
    on) lies above 255 and is in no string here. *)
Definition is_white (c : ascii) : bool :=
  let n := nat_of_ascii c in
  ((9 <=? n) && (n <=? 13) || (n =? 32) || (n =? 160))%nat.

(** [!s.trim()] *)
Definition blank (s : string) : bool :=
  forallb is_white (list_ascii_of_string s).

(** [arr.pop()]: drops the last element, if any. *)
Definition pop {A : Type} (arr : list A) : list A := removelast arr.

End Js.

(** ** core/services/notification.service.ts *)
Module NotificationService.

Inductive NotificationType := Success | Error | Warning | Info.

Record Notification := {
  id : string;
  type : NotificationType;
  message : string;
  duration : option N
}.

(** The service: the current value of [notifications$] and the callbacks
    registered with [setTimeout] (firing instant, identifier to remove). *)
Record State := {
  notifications : list Notification;
  timers : list (N * string)
}.

Definition initial : State := {| notifications := []; timers := [] |}.

(** [remove(id)]: keeps the notifications whose id differs. *)
Definition remove (i : string) (st : State) : State :=
  {| notifications := filter (fun n => negb (id n =? i)) (notifications st);
     timers := timers st |}.

(** [show(type, message, duration)].  [now] is the instant of the call and
    [fresh] the string [generateId()] returned, both chosen by the
    environment ([Date.now()], [Math.random()]). *)
Definition show (ty : NotificationType) (msg : string) (dur : N)
    (now : N) (fresh : string) (st : State) : State :=
  let notification :=
    {| id := fresh; type := ty; message := msg; duration := Some dur |} in
  {| notifications := notifications st ++ [notification];
     timers := if (0 <? dur)%N
               then timers st ++ [((now + dur)%N, fresh)]
               else timers st |}.

Definition success (msg : string) := show Success msg 5000.
Definition error (msg : string) := show Error msg 7000.
Definition warning (msg : string) := show Warning msg 5000.
Definition info (msg : string) := show Info msg 5000.

End NotificationService.

(** ** Angular's HTTP vocabulary, as the sources use it *)
Module Http.

Inductive Method := GET | POST | PUT | DELETE.

Record HttpRequest (B : Type) := {
  method : Method;
  url : string;
  body : option B;
  headers : list (string * string)
}.
Arguments method {B} _.
Arguments url {B} _.
Arguments body {B} _.
Arguments headers {B} _.

(** The events of an [Observable<HttpEvent<any>>] that precede the final
    response: the back ends emit [Sent] as soon as the request is fired. *)
Inductive HttpEvent := Sent | UploadProgress | ResponseHeader | DownloadProgress.

(** [error.error] of an [HttpErrorResponse]: absent, a client-side
    [ErrorEvent], or the parsed body the server sent, whose [detail] the
    sources read as the string their signatures promise. *)
Inductive ErrorBody :=
| NoBody
| ErrorEvent (message : string)
| ServerBody (detail : option string).

Record HttpErrorResponse := {
  status : Z;
  error : ErrorBody;
  message : string
}.

(** The values that travel on the error channel of the pipelines. *)
Inductive Thrown :=
| OfHttp (e : HttpErrorResponse)
| OfError (msg : string)       (* new Error(msg) *)
| TimeoutError.                (* rxjs' TimeoutError *)

(** [err.error] and [err.message] on such a value. *)
Definition thrown_error (err : Thrown) : ErrorBody :=
  match err with
  | OfHttp e => error e
  | OfError _ | TimeoutError => NoBody
  end.

Definition thrown_message (err : Thrown) : string :=
  match err with
  | OfHttp e => message e
  | OfError msg => msg
  | TimeoutError => "Timeout has occurred"
  end.

(** [body?.detail] *)
Definition detail_of (b : ErrorBody) : option string :=
  match b with
  | ServerBody d => d
  | NoBody | ErrorEvent _ => None
  end.

(** What one subscription to [next.handle(request)] yields: the events
    before the end, the time the end takes, and the end itself. *)
Inductive Ending (R : Type) :=
| Responds (r : R)
| Fails (e : HttpErrorResponse)
| Hangs.
Arguments Responds {R} _.
Arguments Fails {R} _.
Arguments Hangs {R}.

Record Attempt (R : Type) := {
  pre : list HttpEvent;
  dur : N;
  ending : Ending R
}.
Arguments pre {R} _.
Arguments dur {R} _.
Arguments ending {R} _.

(** A cold source: the attempt its k-th subscription performs. *)
Definition HttpHandler (B R : Type) := HttpRequest B -> nat -> Attempt R.

End Http.

(** ** The rxjs operators the sources pipe through

    One subscription to an observable of these pipelines delivers at most
    one value and then completes (an HTTP call), or fails, or stays silent.
    A [Run] is that outcome together with the timed side effects the
    subscription caused on the way. *)
Module Rx.
Import Http.

Inductive Effect (B : Type) :=
| Request (k : nat) (req : HttpRequest B)   (* k-th subscription to the handler *)
| Notify (msg : string)                     (* notificationService.error(msg) *)
| ConsoleError (label msg : string).        (* console.error(label, ...) *)
Arguments Request {B} _ _.
Arguments Notify {B} _.
Arguments ConsoleError {B} _ _.

Inductive Outcome (A : Type) :=
| Emits (t : N) (v : A)
| Throws (t : N) (err : Thrown)
| Silent
| Unfinished (t : N).   (* the fuel ran out at [t], a resubscription was due *)
Arguments Emits {A} _ _.
Arguments Throws {A} _ _.
Arguments Silent {A}.
Arguments Unfinished {A} _.

Record Run (B A : Type) := {
  outcome : Outcome A;
  log : list (N * Effect B)
}.
Arguments outcome {B A} _.
Arguments log {B A} _.

(** The object handed to [retry]. *)
Record RetryConfig := {
  count : nat;
  delay : N;
  resetOnSuccess : bool
}.

Section Operators.
Context {B R : Type}.

Definition logged (t : N) (e : Effect B) (r : Run B R) : Run B R :=
  {| outcome := outcome r; log := (t, e) :: log r |}.

(** [retry(config)] over a cold HTTP source.  [k] subscriptions have been
    made so far, [soFar] is the operator's counter and [t] the instant of
    this subscription.  A value the subscription emits resets the counter
    when [resetOnSuccess] is set; an error resubscribes after [delay]
    while [soFar++ < count], and is passed on otherwise. *)
Fixpoint retry (config : RetryConfig) (req : HttpRequest B)
    (source : nat -> Attempt R) (fuel k soFar : nat) (t : N) : Run B R :=
  match fuel with
  | O => {| outcome := Unfinished t; log := [] |}
  | S fuel' =>
      let a := source k in
      let soFar :=
        match pre a with
        | [] => soFar
        | _ :: _ => if resetOnSuccess config then O else soFar
        end in
      logged t (Request k req)
        match ending a with
        | Responds r => {| outcome := Emits (t + dur a) r; log := [] |}
        | Hangs => {| outcome := Silent; log := [] |}
        | Fails e =>
            if (soFar <? count config)%nat
            then retry config req source fuel' (S k) (S soFar)
                       (t + dur a + delay config)
            else {| outcome := Throws (t + dur a) (OfHttp e); log := [] |}
        end
  end.

(** [catchError(selector)] where the selector performs some effects and
    returns [throwError(() => err')]. *)
Definition catchError (selector : Thrown -> list (Effect B) * Thrown)
    (r : Run B R) : Run B R :=
  match outcome r with
  | Throws t err =>
      let '(effects, err') := selector err in
      {| outcome := Throws t err';
         log := log r ++ map (fun e => (t, e)) effects |}
  | _ => r
  end.

(** [timeout(due)]: when nothing has been delivered strictly before
    [due], the source is unsubscribed (what it would have done from
    [due] on does not happen) and a [TimeoutError] is thrown. *)
Definition timeout (due : N) (r : Run B R) : Run B R :=
  let expired :=
    {| outcome := Throws due TimeoutError;
       log := filter (fun p => (fst p <? due)%N) (log r) |} in
  match outcome r with
  | Emits t _ | Throws t _ | Unfinished t => if (t <? due)%N then r else expired
  | Silent => expired
  end.

End Operators.

(** The run delivered nothing later than [due]; a run whose fuel ran out
    is judged at the instant it had reached. *)
Definition bounded_by {B A : Type} (due : N) (r : Run B A) : Prop :=
  match outcome r with
  | Emits t _ | Throws t _ => (t <= due)%N
  | Unfinished t => (t < due)%N
  | Silent => False
  end.

(** The run delivered a value or an error. *)
Definition settled {B A : Type} (r : Run B A) : Prop :=
  match outcome r with
  | Emits _ _ | Throws _ _ => True
  | Silent | Unfinished _ => False
  end.

(** The logged effect is a request. *)
Definition is_request {B : Type} (p : N * Effect B) : Prop :=
  match snd p with
  | Request _ _ => True
  | _ => False
  end.

(** Nothing of the run happens before [t]. *)
Definition not_before {B A : Type} (t : N) (r : Run B A) : Prop :=
  Forall (fun p => (t <= fst p)%N) (log r)
  /\ match outcome r with
     | Emits t' _ | Throws t' _ | Unfinished t' => (t <= t')%N
     | Silent => True
     end.

(** The requests and the notifications of a log. *)
Definition requests_in {B : Type} (l : list (N * Effect B)) : list (N * nat) :=
  flat_map (fun p => match snd p with
                     | Request k _ => [(fst p, k)]
                     | _ => []
                     end) l.

Definition notified_in {B : Type} (l : list (N * Effect B)) : list string :=
  flat_map (fun p => match snd p with
                     | Notify msg => [msg]
                     | _ => []
                     end) l.

(** The requests a run sent (instant, subscription) and the messages it
    pushed to the notification service. *)
Definition requests {B A : Type} (r : Run B A) : list (N * nat) :=
  requests_in (log r).

Definition notified {B A : Type} (r : Run B A) : list string :=
  notified_in (log r).

End Rx.

(** ** core/interceptors/http-error.interceptor.ts *)
Module HttpErrorInterceptor.
Import Http Rx.

Definition getServerErrorMessage (error : HttpErrorResponse) : string :=
  let detail := detail_of (Http.error error) in
  match status error with
  | 0%Z => "Cannot connect to server. Please check your internet connection."
  | 400%Z => Js.or_else detail "Invalid request. Please check your input."
  | 401%Z => "Unauthorized. Please log in."
  | 403%Z => "Access forbidden."
  | 404%Z => "Resource not found."
  | 408%Z => "Request timeout. Please try again."
  | 500%Z => Js.or_else detail "Server error. Please try again later."
  | 503%Z => "Service temporarily unavailable."
  | s => Js.or_else detail ("Server error: " ++ Js.number_to_string s)
  end.

(** The message the [catchError] callback computes. *)
Definition errorMessage (error : HttpErrorResponse) : string :=
  match Http.error error with
  | ErrorEvent m => "Client Error: " ++ m
  | _ => getServerErrorMessage error
  end.

(** The [catchError] callback.  What reaches it from [next.handle] is an
    [HttpErrorResponse]; the other cases are read through the same
    property accesses. *)
Definition onError {B : Type} (err : Thrown) : list (Effect B) * Thrown :=
  let msg : string :=
    match err with
    | OfHttp e => errorMessage e
    | OfError _ | TimeoutError => "Server error: undefined"
    end in
  ([Notify msg; ConsoleError "HTTP Error:" msg], OfError msg).

Definition retryConfig : RetryConfig :=
  {| count := 1; delay := 1000; resetOnSuccess := true |}.

(** [intercept(request, next)], subscribed once at instant 0. *)
Definition intercept {B R : Type} (request : HttpRequest B)
    (next : HttpHandler B R) (fuel : nat) : Run B R :=
  catchError onError (retry retryConfig request (next request) fuel 0 0 0).

End HttpErrorInterceptor.

(** ** Angular's [HttpClient], as [ApiService] is given it *)
Module HttpClient.
Import Http Rx.

Definition Client (B R : Type) := HttpRequest B -> Run B R.

(** A client with no interceptor: one subscription to the back end. *)
Definition bare {B R : Type} (backend : HttpHandler B R) : Client B R :=
  fun req =>
    let a := backend req O in
    logged 0 (Request O req)
      match ending a with
      | Responds r => {| outcome := Emits (dur a) r; log := [] |}
      | Fails e => {| outcome := Throws (dur a) (OfHttp e); log := [] |}
      | Hangs => {| outcome := Silent; log := [] |}
      end.

(** A client whose requests pass through [HttpErrorInterceptor]. *)
Definition intercepted {B R : Type} (backend : HttpHandler B R) (fuel : nat)
    : Client B R :=
  fun req => HttpErrorInterceptor.intercept req backend fuel.

End HttpClient.

(** ** core/services/api.service.ts *)
Module ApiService.
Import Http Rx HttpClient.

Definition defaultTimeout : N := 120000.

Definition getHeaders : list (string * string) :=
  [("Content-Type", "application/json")].

(** [timeoutMs || this.defaultTimeout]: an absent or zero override is falsy. *)
Definition timeoutOr (timeoutMs : option N) : N :=
  match timeoutMs with
  | Some ms => if (ms =? 0)%N then defaultTimeout else ms
  | None => defaultTimeout
  end.

Definition handleError {B : Type} (error : Thrown) : list (Effect B) * Thrown :=
  let errorMessage : string :=
    match thrown_error error with
    | ErrorEvent m => ("Error: " ++ m)%string
    | b => Js.or_else (detail_of b)
             (Js.or_else (Some (thrown_message error)) "Server error")
    end in
  ([ConsoleError "API Error:" errorMessage], OfError errorMessage).

Section Methods.
Context {B R : Type}.
(** [this.http] and [environment.apiUrl] *)
Variable http : Client B R.
Variable apiUrl : string.

Definition get (endpoint : string) (timeoutMs : option N) : Run B R :=
  catchError handleError
    (timeout (timeoutOr timeoutMs)
       (http {| method := GET; url := apiUrl ++ endpoint;
                body := None; headers := getHeaders |})).

Definition post (endpoint : string) (data : B) (timeoutMs : option N) : Run B R :=
  catchError handleError
    (timeout (timeoutOr timeoutMs)
       (http {| method := POST; url := apiUrl ++ endpoint;
                body := Some data; headers := getHeaders |})).

Definition put (endpoint : string) (data : B) : Run B R :=
  catchError handleError
    (timeout defaultTimeout
       (http {| method := PUT; url := apiUrl ++ endpoint;
                body := Some data; headers := getHeaders |})).

Definition delete (endpoint : string) : Run B R :=
  catchError handleError
    (timeout defaultTimeout
       (http {| method := DELETE; url := apiUrl ++ endpoint;
                body := None; headers := getHeaders |})).
End Methods.

End ApiService.

(** ** shared/models/ats.model.ts and core/services/ats.service.ts *)
Module AtsService.
Import Http Rx HttpClient.

Record ATSRequest := {
  resume_text : string;
  job_description : string
}.

Definition analyzeResume {R : Type} (http : Client ATSRequest R)
    (apiUrl : string) (request : ATSRequest) : Run ATSRequest R :=
  ApiService.post http apiUrl "/ats/analyze" request None.

End AtsService.

(** ** shared/models/image.model.ts and core/services/image.service.ts *)
Module ImageService.
Import Http Rx HttpClient.

Record ImageGenerationRequest := {
  prompt : string;
  style : string;
  width : option Z;
  height : option Z;
  num_inference_steps : option Z;
  guidance_scale : option Z
}.

Definition generateImage {R : Type} (http : Client ImageGenerationRequest R)
    (apiUrl : string) (request : ImageGenerationRequest)
    : Run ImageGenerationRequest R :=
  ApiService.post http apiUrl "/image/generate" request (Some 300000%N).

Definition getImageUrl (imageSource : string) : string :=
  if Js.truthy imageSource
     && (String.prefix "http://" imageSource || String.prefix "https://" imageSource)
  then imageSource
  else "http://localhost:8000/images/" ++ imageSource.

End ImageService.

(** ** features/ats-analyzer/ats-analyzer.component.ts *)
Module AtsAnalyzerComponent.
Import Http Rx HttpClient.

Record State (R : Type) := {
  resumeText : string;
  jobDescription : string;
  loading : bool;
  error : string;
  result : option R
}.
Arguments resumeText {R} _.
Arguments jobDescription {R} _.
Arguments loading {R} _.
Arguments error {R} _.
Arguments result {R} _.

(** [analyzeResume()], with the subscription's callbacks run when the call
    settles; the second component is what the call did on the way. *)
Definition analyzeResume {R : Type} (http : Client AtsService.ATSRequest R)
    (apiUrl : string) (this : State R)
    : State R * list (N * Effect AtsService.ATSRequest) :=
  if negb (Js.truthy (resumeText this)) || negb (Js.truthy (jobDescription this))
  then ({| resumeText := resumeText this;
           jobDescription := jobDescription this;
           loading := loading this;
           error := "Please fill both fields";
           result := result this |}, [])
  else
    let request :=
      {| AtsService.resume_text := resumeText this;
         AtsService.job_description := jobDescription this |} in
    let run := AtsService.analyzeResume http apiUrl request in
    (match outcome run with
     | Emits _ response =>
         {| resumeText := resumeText this;
            jobDescription := jobDescription this;
            loading := false;
            error := "";
            result := Some response |}
     | Throws _ err =>
         {| resumeText := resumeText this;
            jobDescription := jobDescription this;
            loading := false;
            error := Js.or_else (Some (thrown_message err))
                       "Analysis failed. Please try again.";
            result := result this |}
     | Silent | Unfinished _ =>
         {| resumeText := resumeText this;
            jobDescription := jobDescription this;
            loading := true;
            error := "";
            result := result this |}
     end, log run).

End AtsAnalyzerComponent.

(** ** features/image-generation/image-generation.component.ts *)
Module ImageGenerationComponent.
Import Http Rx HttpClient.

Record Metadata := {
  id : string;
  original_prompt : string;
  meta_enhanced_prompt : string;
  meta_style : string;
  width : Z;
  height : Z;
  created_at : string;
  api_provider : string;
  generation_status : string
}.

(** Numeric fields are carried along, never computed with. *)
Record ImageGenerationResponse := {
  metadata : option Metadata;
  image_url : string;
  image_filename : option string;
  image_path : option string;
  enhanced_prompt : string;
  message : string;
  prompt : option string;
  generation_time : option Z;
  style : option string;
  image_id : option string
}.

Record State := {
  this_prompt : string;
  selectedStyle : string;
  loading : bool;
  error : string;
  generatedImage : option ImageGenerationResponse;
  history : list ImageGenerationResponse
}.

Definition initial : State :=
  {| this_prompt := ""; selectedStyle := "realistic"; loading := false;
     error := ""; generatedImage := None; history := [] |}.

(** [response.prompt = this.prompt; response.style = this.selectedStyle] *)
Definition stamped (this : State) (response : ImageGenerationResponse)
    : ImageGenerationResponse :=
  {| metadata := metadata response;
     image_url := image_url response;
     image_filename := image_filename response;
     image_path := image_path response;
     enhanced_prompt := enhanced_prompt response;
     message := message response;
     prompt := Some (this_prompt this);
     generation_time := generation_time response;
     style := Some (selectedStyle this);
     image_id := image_id response |}.

(** The [next] callback of [generateImage()].  [generatedImage] and the
    new head of [history] are the one response object, written to before
    it is stored; no entry already in [history] is written to. *)
Definition onNext (this : State) (response : ImageGenerationResponse) : State :=
  let response := stamped this response in
  let unshifted := response :: history this in
  {| this_prompt := this_prompt this;
     selectedStyle := selectedStyle this;
     loading := false;
     error := error this;
     generatedImage := Some response;
     history := if (12 <? length unshifted)%nat then Js.pop unshifted
                else unshifted |}.

(** The [error] callback of [generateImage()]. *)
Definition onError (this : State) (err : Thrown) : State :=
  {| this_prompt := this_prompt this;
     selectedStyle := selectedStyle this;
     loading := false;
     error := Js.or_else (Some (thrown_message err))
                "Generation failed. Please try again.";
     generatedImage := generatedImage this;
     history := history this |}.

(** [generateImage()] up to the subscription: the validation, the flags,
    and the request handed to [ImageService.generateImage] ([None] when the
    method returned before).  The callbacks run when the call settles, with
    the component as it is by then. *)
Definition generateImage (this : State)
    : State * option ImageService.ImageGenerationRequest :=
  if Js.blank (this_prompt this)
  then ({| this_prompt := this_prompt this;
           selectedStyle := selectedStyle this;
           loading := loading this;
           error := "Please enter a prompt";
           generatedImage := generatedImage this;
           history := history this |}, None)
  else ({| this_prompt := this_prompt this;
           selectedStyle := selectedStyle this;
           loading := true;
           error := "";
           generatedImage := generatedImage this;
           history := history this |},
        Some {| ImageService.prompt := this_prompt this;
                ImageService.style := selectedStyle this;
                ImageService.width := Some 1024%Z;
                ImageService.height := Some 1024%Z;
                ImageService.num_inference_steps := None;
                ImageService.guidance_scale := None |}).

Definition loadFromHistory (item : ImageGenerationResponse) (this : State) : State :=
  {| this_prompt :=
       Js.or_else (prompt item)
         (Js.or_else (option_map original_prompt (metadata item)) "");
     selectedStyle :=
       Js.or_else (style item)
         (Js.or_else (option_map meta_style (metadata item)) "realistic");
     loading := loading this;
     error := error this;
     generatedImage := Some item;
     history := history this |}.

Definition onImageLoadError (this : State) : State :=
  {| this_prompt := this_prompt this;
     selectedStyle := selectedStyle this;
     loading := loading this;
     error := "Image failed to load. This may be a CORS or network issue.";
     generatedImage := generatedImage this;
     history := history this |}.

(** What can happen to the component: the two-way bound fields are edited,
    one of its methods is called, or a pending call settles. *)
Inductive Event :=
| EditPrompt (s : string)
| EditStyle (s : string)
| GenerateImage
| Next (response : ImageGenerationResponse)
| Failed (err : Thrown)
| LoadFromHistory (item : ImageGenerationResponse)
| ImageLoadError.

Definition step (this : State) (ev : Event) : State :=
  match ev with
  | EditPrompt s =>
      {| this_prompt := s; selectedStyle := selectedStyle this;
         loading := loading this; error := error this;
         generatedImage := generatedImage this; history := history this |}
  | EditStyle s =>
      {| this_prompt := this_prompt this; selectedStyle := s;
         loading := loading this; error := error this;
         generatedImage := generatedImage this; history := history this |}
  | GenerateImage => fst (generateImage this)
  | Next response => onNext this response
  | Failed err => onError this err
  | LoadFromHistory item => loadFromHistory item this
  | ImageLoadError => onImageLoadError this
  end.

Definition run (events : list Event) : State := fold_left step events initial.

End ImageGenerationComponent.

(** ** shared/models/resume.model.ts, as the components use it *)
Module ResumeModel.

Record Experience := {
  title : string;
  company : string;
  duration : string;
  responsibilities : list string
}.

Record Education := {
  degree : string;
  institution : string;
  year : string;
  gpa : string
}.

Record ResumeRequest := {
  name : string;
  email : string;
  phone : string;
  target_role : string;
  skills : list string;
  experience : list Experience;
  education : list Education;
  job_description : string
}.

Definition with_experience (d : ResumeRequest) (l : list Experience) : ResumeRequest :=
  {| name := name d; email := email d; phone := phone d;
     target_role := target_role d; skills := skills d;
     experience := l; education := education d;
     job_description := job_description d |}.

Definition with_education (d : ResumeRequest) (l : list Education) : ResumeRequest :=
  {| name := name d; email := email d; phone := phone d;
     target_role := target_role d; skills := skills d;
     experience := experience d; education := l;
     job_description := job_description d |}.

Definition with_responsibilities (e : Experience) (l : list string) : Experience :=
  {| title := title e; company := company e; duration := duration e;
     responsibilities := l |}.

Definition blankExperience : Experience :=
  {| title := ""; company := ""; duration := ""; responsibilities := [""] |}.

Definition blankEducation : Education :=
  {| degree := ""; institution := ""; year := ""; gpa := "" |}.

(** The methods of the two components that change the lists. *)
Inductive Call :=
| AddExperience
| RemoveExperience (index : Z)
| AddResponsibility (expIndex : Z)
| RemoveResponsibility (expIndex respIndex : Z)
| AddEducation
| RemoveEducation (index : Z).

End ResumeModel.

(** ** features/resume-generator/resume-generator.component.ts

    The methods act on [this.resumeData]; [None] is a [TypeError] thrown
    before anything was written ([experience[expIndex]] is [undefined]). *)
Module ResumeGeneratorComponent.
Import ResumeModel.

Definition resumeData : ResumeRequest :=
  {| name := ""; email := ""; phone := ""; target_role := ""; skills := [];
     experience := [blankExperience];
     education := [blankEducation];
     job_description := "" |}.

Definition addExperience (d : ResumeRequest) : ResumeRequest :=
  with_experience d (experience d ++ [blankExperience]).

Definition removeExperience (index : Z) (d : ResumeRequest) : ResumeRequest :=
  if (1 <? length (experience d))%nat
  then with_experience d (Js.splice1 index (experience d))
  else d.

Definition addResponsibility (expIndex : Z) (d : ResumeRequest)
    : option ResumeRequest :=
  match Js.index (experience d) expIndex with
  | None => None
  | Some e =>
      Some (with_experience d
              (Js.set_nth (experience d) (Z.to_nat expIndex)
                 (with_responsibilities e (responsibilities e ++ [""]))))
  end.

Definition removeResponsibility (expIndex respIndex : Z) (d : ResumeRequest)
    : option ResumeRequest :=
  match Js.index (experience d) expIndex with
  | None => None
  | Some e =>
      if (1 <? length (responsibilities e))%nat
      then Some (with_experience d
                   (Js.set_nth (experience d) (Z.to_nat expIndex)
                      (with_responsibilities e
                         (Js.splice1 respIndex (responsibilities e)))))
      else Some d
  end.

Definition addEducation (d : ResumeRequest) : ResumeRequest :=
  with_education d (education d ++ [blankEducation]).

Definition removeEducation (index : Z) (d : ResumeRequest) : ResumeRequest :=
  if (1 <? length (education d))%nat
  then with_education d (Js.splice1 index (education d))
  else d.

(** A call from the template; a thrown [TypeError] leaves the data as
    they were. *)
Definition call (c : Call) (d : ResumeRequest) : ResumeRequest :=
  match c with
  | AddExperience => addExperience d
  | RemoveExperience i => removeExperience i d
  | AddResponsibility e =>
      match addResponsibility e d with Some d' => d' | None => d end
  | RemoveResponsibility e r =>
      match removeResponsibility e r d with Some d' => d' | None => d end
  | AddEducation => addEducation d
  | RemoveEducation i => removeEducation i d
  end.

End ResumeGeneratorComponent.

(** ** features/resume-generator/components/resume-form/resume-form.component.ts

    The methods act on the [resumeData] the parent passed in and return what
    [dataChange] emitted besides. *)
Module ResumeFormComponent.
Import ResumeModel.

Definition emitChange (d : ResumeRequest) : ResumeRequest * list ResumeRequest :=
  (d, [d]).

Definition addExperience (d : ResumeRequest) : ResumeRequest * list ResumeRequest :=
  emitChange (with_experience d (experience d ++ [blankExperience])).

Definition removeExperience (index : Z) (d : ResumeRequest)
    : ResumeRequest * list ResumeRequest :=
  if (1 <? length (experience d))%nat
  then emitChange (with_experience d (Js.splice1 index (experience d)))
  else (d, []).

Definition addResponsibility (expIndex : Z) (d : ResumeRequest)
    : option (ResumeRequest * list ResumeRequest) :=
  match Js.index (experience d) expIndex with
  | None => None
  | Some e =>
      Some (emitChange
              (with_experience d
                 (Js.set_nth (experience d) (Z.to_nat expIndex)
                    (with_responsibilities e (responsibilities e ++ [""])))))
  end.

Definition removeResponsibility (expIndex respIndex : Z) (d : ResumeRequest)
    : option (ResumeRequest * list ResumeRequest) :=
  match Js.index (experience d) expIndex with
  | None => None
  | Some e =>
      let responsibilities := responsibilities e in
      if (1 <? length responsibilities)%nat
      then Some (emitChange
                   (with_experience d
                      (Js.set_nth (experience d) (Z.to_nat expIndex)
                         (with_responsibilities e
                            (Js.splice1 respIndex responsibilities)))))
      else Some (d, [])
  end.

Definition addEducation (d : ResumeRequest) : ResumeRequest * list ResumeRequest :=
  emitChange (with_education d (education d ++ [blankEducation])).

Definition removeEducation (index : Z) (d : ResumeRequest)
    : ResumeRequest * list ResumeRequest :=
  if (1 <? length (education d))%nat
  then emitChange (with_education d (Js.splice1 index (education d)))
  else (d, []).

Definition call (c : Call) (d : ResumeRequest) : ResumeRequest :=
  match c with
  | AddExperience => fst (addExperience d)
  | RemoveExperience i => fst (removeExperience i d)
  | AddResponsibility e =>
      match addResponsibility e d with Some r => fst r | None => d end
  | RemoveResponsibility e r =>
      match removeResponsibility e r d with Some r' => fst r' | None => d end
  | AddEducation => fst (addEducation d)
  | RemoveEducation i => fst (removeEducation i d)
  end.

End ResumeFormComponent.

(** The two components may hold the same [resumeData] object (the form
    receives it as an input): calls of either act on the one value. *)
Module SharedResumeData.
Import ResumeModel.

Inductive Component := Form | Generator.

Definition call (who : Component) : Call -> ResumeRequest -> ResumeRequest :=
  match who with
  | Form => ResumeFormComponent.call
  | Generator => ResumeGeneratorComponent.call
  end.

Definition run (calls : list (Component * Call)) (d : ResumeRequest) : ResumeRequest :=
  fold_left (fun d c => call (fst c) (snd c) d) calls d.

(** No list of entries is empty. *)
Definition populated (d : ResumeRequest) : Prop :=
  experience d <> [] /\ education d <> [] /\
  Forall (fun e => responsibilities e <> []) (experience d).

End SharedResumeData.

(** ** The effects of a run on the notification service

    The logged calls of [notificationService.error] are performed in order,
    at their instants; [generateId k] is the identifier the k-th call drew. *)
Module Effects.
Import Rx.

Fixpoint replay {B : Type} (generateId : nat -> string) (k : nat)
    (log : list (N * Effect B)) (st : NotificationService.State)
    : NotificationService.State :=
  match log with
  | [] => st
  | (t, Notify msg) :: rest =>
      replay generateId (S k) rest
        (NotificationService.error msg t (generateId k) st)
  | _ :: rest => replay generateId k rest st
  end.

End Effects.

(** ** Back ends used as concrete inputs *)
Module Scenarios.
Import Http.

Definition internalServerError : HttpErrorResponse :=
  {| status := 500; error := ServerBody None;
     message := "Http failure response for http://localhost:8000/ats/analyze: 500 Internal Server Error" |}.

Definition requestTimeout : HttpErrorResponse :=
  {| status := 408; error := NoBody;
     message := "Http failure response for http://localhost:8000/ats/analyze: 408 Request Timeout" |}.

Definition notFound (text : string) : HttpErrorResponse :=
  {| status := 404; error := NoBody; message := text |}.

Definition notFoundWithDetail : HttpErrorResponse :=
  {| status := 404; error := ServerBody (Some "Image not found");
     message := "Http failure response for http://localhost:8000/images/a.png: 404 Not Found" |}.

(** Every request is reported as sent and fails 50 ms later with a 500. *)
Definition failsAfterSent {B R : Type} : HttpHandler B R :=
  fun _ _ => {| pre := [Sent]; dur := 50; ending := Fails internalServerError |}.

(** Every request fails 50 ms later with [e], no event before. *)
Definition failsSilently {B R : Type} (e : HttpErrorResponse) : HttpHandler B R :=
  fun _ _ => {| pre := []; dur := 50; ending := Fails e |}.

(** The server never answers. *)
Definition neverAnswers {B R : Type} : HttpHandler B R :=
  fun _ _ => {| pre := [Sent]; dur := 0; ending := Hangs |}.

Definition atsRequest : AtsService.ATSRequest :=
  {| AtsService.resume_text := "Ten years of Rocq";
     AtsService.job_description := "Proof engineer" |}.

Definition analyzeRequest : HttpRequest AtsService.ATSRequest :=
  {| method := POST; url := "http://localhost:8000/ats/analyze";
     body := Some atsRequest; headers := ApiService.getHeaders |}.

(** The analyzer's form, both fields filled in. *)
Definition filledForm : AtsAnalyzerComponent.State unit :=
  {| AtsAnalyzerComponent.resumeText := "Ten years of Rocq";
     AtsAnalyzerComponent.jobDescription := "Proof engineer";
     AtsAnalyzerComponent.loading := false;
     AtsAnalyzerComponent.error := "";
     AtsAnalyzerComponent.result := None |}.

End Scenarios.

(** ** JavaScript numbers, as far as they are compared with integer literals

    A finite double is a rational; the literals it is compared with here
    are integers, so the comparison is the one of the rationals. *)
Module JsNumber.

Inductive number :=
| Finite (q : Q)
| NaN
| PosInfinity
| NegInfinity.

(** [x >= n] for an integer literal [n] *)
Definition ge (x : number) (n : Z) : bool :=
  match x with
  | Finite q => Qle_bool (inject_Z n) q
  | PosInfinity => true
  | NaN | NegInfinity => false
  end.

End JsNumber.

(** ** features/ats-analyzer/ats-analyzer.component.ts: the score helpers *)
Module AtsAnalyzerScore.
Import JsNumber.

Definition getScoreColor (score : number) : string :=
  if ge score 80 then "#22c55e"
  else if ge score 60 then "#f59e0b"
  else "#ef4444".

Definition getScoreLabel (score : number) : string :=
  if ge score 80 then "Excellent - Ready to Apply!"
  else if ge score 60 then "Good - Minor Improvements Needed"
  else if ge score 40 then "Fair - Needs Optimization"
  else "Poor - Significant Changes Required".

End AtsAnalyzerScore.

(** ** String methods the resume components call *)
Module JsString.

(** [s.split(sep)] for a separator of one character. *)
Fixpoint split (sep : ascii) (s : string) : list string :=
  match s with
  | EmptyString => [""]
  | String c rest =>
      if Ascii.eqb c sep then "" :: split sep rest
      else match split sep rest with
           | piece :: pieces => String c piece :: pieces
           | [] => [String c ""]
           end
  end.

Fixpoint dropWhite (l : list ascii) : list ascii :=
  match l with
  | [] => []
  | c :: rest => if Js.is_white c then dropWhite rest else l
  end.

(** [s.trim()]: the white space at both ends goes. *)
Definition trim (s : string) : string :=
  string_of_list_ascii
    (rev (dropWhite (rev (dropWhite (list_ascii_of_string s))))).

(** [a && b] on strings: [a] when it is falsy, [b] otherwise. *)
Definition and_then (a b : string) : string :=
  if Js.truthy a then b else a.

(** No character of [s] is [c]. *)
Definition free_of (c : ascii) (s : string) : Prop :=
  ~ In c (list_ascii_of_string s).

(** [s] neither starts nor ends with white space. *)
Definition trimmed (s : string) : Prop :=
  (forall c rest, list_ascii_of_string s = c :: rest -> Js.is_white c = false)
  /\ (forall front c, list_ascii_of_string s = front ++ [c] -> Js.is_white c = false).

End JsString.

(** ** core/services/resume.service.ts *)
Module ResumeService.
Import Http Rx HttpClient.

Definition generateResume {R : Type} (http : Client ResumeModel.ResumeRequest R)
    (apiUrl : string) (request : ResumeModel.ResumeRequest)
    : Run ResumeModel.ResumeRequest R :=
  ApiService.post http apiUrl "/resume/generate" request None.

Definition getResumeUrl (pdfPath : string) : string :=
  ("http://localhost:8000" ++ pdfPath)%string.

End ResumeService.

(** ** The rest of the two resume components: validation and submission *)
Module ResumeSubmit.
Import Http Rx HttpClient ResumeModel.

Definition with_skills (d : ResumeRequest) (l : list string) : ResumeRequest :=
  {| name := name d; email := email d; phone := phone d;
     target_role := target_role d; skills := l;
     experience := experience d; education := education d;
     job_description := job_description d |}.

(** [skillsInput.split(',').map(s => s.trim()).filter(s => s)], as
    [ResumeGeneratorComponent.generateResume] parses the skills. *)
Definition parseSkills (skillsInput : string) : list string :=
  filter Js.truthy (map JsString.trim (JsString.split "," skillsInput)).

(** [... .filter(s => s.length > 0)], as [ResumeFormComponent.onGenerate]
    parses them. *)
Definition parseSkillsForm (skillsInput : string) : list string :=
  filter (fun s => (0 <? String.length s)%nat)
    (map JsString.trim (JsString.split "," skillsInput)).

(** [isFormValid()], the same in both components. *)
Definition isFormValid (resumeData : ResumeRequest) (skillsInput : string) : bool :=
  Js.truthy
    (JsString.and_then
       (JsString.and_then
          (JsString.and_then
             (JsString.and_then
                (JsString.and_then (name resumeData) (email resumeData))
                (phone resumeData))
             (target_role resumeData))
          skillsInput)
       (job_description resumeData)).

(** [ResumeFormComponent.onGenerate()]: the data with the parsed skills, and
    the number of [generateResume] events emitted. *)
Definition onGenerate (resumeData : ResumeRequest) (skillsInput : string)
    : ResumeRequest * nat :=
  (with_skills resumeData (parseSkillsForm skillsInput), 1%nat).

(** The resume generator component. *)
Record State (R : Type) := {
  resumeData : ResumeRequest;
  skillsInput : string;
  loading : bool;
  error : string;
  result : option R
}.
Arguments resumeData {R} _.
Arguments skillsInput {R} _.
Arguments loading {R} _.
Arguments error {R} _.
Arguments result {R} _.

(** [ResumeGeneratorComponent.generateResume()], with the subscription's
    callbacks run when the call settles. *)
Definition generateResume {R : Type} (http : Client ResumeRequest R)
    (apiUrl : string) (this : State R)
    : State R * list (N * Effect ResumeRequest) :=
  if negb (isFormValid (resumeData this) (skillsInput this))
  then ({| resumeData := resumeData this;
           skillsInput := skillsInput this;
           loading := loading this;
           error := "Please fill all required fields";
           result := result this |}, [])
  else
    let data := with_skills (resumeData this) (parseSkills (skillsInput this)) in
    let run := ResumeService.generateResume http apiUrl data in
    (match outcome run with
     | Emits _ response =>
         {| resumeData := data;
            skillsInput := skillsInput this;
            loading := false;
            error := "";
            result := Some response |}
     | Throws _ err =>
         {| resumeData := data;
            skillsInput := skillsInput this;
            loading := false;
            error := Js.or_else (Some (thrown_message err))
                       "Resume generation failed. Please try again.";
            result := result this |}
     | Silent | Unfinished _ =>
         {| resumeData := data;
            skillsInput := skillsInput this;
            loading := true;
            error := "";
            result := result this |}
     end, log run).

End ResumeSubmit.

(** ** The events of [ResumeFormComponent]: what each call leaves and emits *)
Module ResumeFormEvents.
Import ResumeModel.

(** A call from the template: the data afterwards and what [dataChange]
    emitted; a thrown [TypeError] leaves the data and emits nothing. *)
Definition perform (c : Call) (d : ResumeRequest) : ResumeRequest * list ResumeRequest :=
  match c with
  | AddExperience => ResumeFormComponent.addExperience d
  | RemoveExperience i => ResumeFormComponent.removeExperience i d
  | AddResponsibility e =>
      match ResumeFormComponent.addResponsibility e d with
      | Some r => r
      | None => (d, [])
      end
  | RemoveResponsibility e r =>
      match ResumeFormComponent.removeResponsibility e r d with
      | Some r' => r'
      | None => (d, [])
      end
  | AddEducation => ResumeFormComponent.addEducation d
  | RemoveEducation i => ResumeFormComponent.removeEducation i d
  end.

End ResumeFormEvents.

(** ** The timers of the notification service *)
Module NotificationTimers.
Import NotificationService.

Fixpoint without_first (entry : N * string) (l : list (N * string)) : list (N * string) :=
  match l with
  | [] => []
  | e :: rest =>
      if ((fst e =? fst entry)%N && (snd e =? snd entry)%string)%bool then rest
      else e :: without_first entry rest
  end.

(** A timer registered by [show] fires: it leaves the pending ones and its
    callback calls [remove] with the identifier it closed over. *)
Definition fire (entry : N * string) (st : State) : State :=
  {| notifications := notifications (remove (snd entry) st);
     timers := without_first entry (timers st) |}.

End NotificationTimers.

(** ** The requests of a retried call in time *)
Module Schedule.

(** The requests are numbered from [k] on without a gap, the first one is
    not sent before [t], and each one comes at least [gap] after the one
    before. *)
Fixpoint spaced (gap : N) (k : nat) (t : N) (l : list (N * nat)) : Prop :=
  match l with
  | [] => True
  | (t', k') :: rest => k' = k /\ (t <= t')%N /\ spaced gap (S k) (t' + gap) rest
  end.

End Schedule.

(** ** Proof steps *)

(** Case analysis on the condition of the first conditional of the goal. *)
Ltac case_if :=
  match goal with
  | |- context [if ?c then _ else _] => destruct c
  end.

(** * Properties *)

(** ** Lists and strings *)

Lemma filter_filter_same {A : Type} (f : A -> bool) (l : list A) :
  filter f (filter f l) = filter f l.
Proof.
  apply forallb_filter_id, forallb_filter.
Qed.

Lemma filter_all_kept {A : Type} (f : A -> bool) (l : list A) :
  (forall x, In x l -> f x = true) -> filter f l = l.
Proof.
  intros Hall. apply forallb_filter_id, forallb_forall, Hall.
Qed.

Lemma string_length_append (a b : string) :
  String.length (a ++ b)%string = String.length a + String.length b.
Proof.
  induction a as [|c a IH]; simpl; [reflexivity | now rewrite IH].
Qed.

Lemma append_nonempty_differs (p s : string) : p <> "" -> (p ++ s)%string <> s.
Proof.
  intros Hp Heq. apply (f_equal String.length) in Heq.
  rewrite string_length_append in Heq.
  destruct p as [|c p]; [now apply Hp | simpl in Heq; lia].
Qed.

Lemma truthy_iff (s : string) : Js.truthy s = true <-> s <> "".
Proof.
  unfold Js.truthy. destruct (String.eqb_spec s ""); simpl; split; congruence.
Qed.

Lemma truthy_false_iff (s : string) : Js.truthy s = false <-> s = "".
Proof.
  unfold Js.truthy. destruct (String.eqb_spec s ""); simpl; split; congruence.
Qed.

(** ** The notification queue *)

(** C5: removing a notification by identifier is idempotent.  Whatever the
    queue and the identifier, removing an identifier no notification carries
    leaves the service as it was, and removing the same identifier a second
    time changes nothing more. *)
Theorem remove_idempotent :
  forall (st : NotificationService.State) (i : string),
    ((forall n, In n (NotificationService.notifications st) ->
                NotificationService.id n <> i) ->
     NotificationService.remove i st = st)
    /\ NotificationService.remove i (NotificationService.remove i st)
       = NotificationService.remove i st.
Proof.
  intros [ns ts] i. unfold NotificationService.remove; simpl. split.
  - intros Habsent. f_equal. apply filter_all_kept. intros n Hn.
    apply negb_true_iff, String.eqb_neq, Habsent, Hn.
  - f_equal. apply filter_filter_same.
Qed.

(** ** Image URLs *)

(** C10: [getImageUrl] returns its argument unchanged exactly when the
    argument is non-empty and starts with "http://" or "https://"; for every
    other argument it returns "http://localhost:8000/images/" followed by
    the argument. *)
Theorem getImageUrl_spec :
  forall imageSource : string,
    (ImageService.getImageUrl imageSource = imageSource <->
     imageSource <> "" /\
     (String.prefix "http://" imageSource = true \/
      String.prefix "https://" imageSource = true))
    /\ (~ (imageSource <> "" /\
           (String.prefix "http://" imageSource = true \/
            String.prefix "https://" imageSource = true)) ->
        ImageService.getImageUrl imageSource
        = ("http://localhost:8000/images/" ++ imageSource)%string).
Proof.
  intros s. unfold ImageService.getImageUrl.
  destruct (Js.truthy s && (String.prefix "http://" s || String.prefix "https://" s))
    eqn:Hc.
  - apply andb_true_iff in Hc. destruct Hc as [Ht Hp].
    apply truthy_iff in Ht. apply orb_true_iff in Hp.
    split; [tauto | intros Hn; exfalso; apply Hn; tauto].
  - split; [| reflexivity]. split.
    + intros Heq. exfalso. revert Heq. apply append_nonempty_differs. discriminate.
    + intros [Hne Hp]. exfalso.
      apply truthy_iff in Hne. apply orb_true_iff in Hp.
      rewrite Hne, Hp in Hc. discriminate.
Qed.

(** ** The image-generation history *)

Lemma onNext_history (this : ImageGenerationComponent.State)
    (response : ImageGenerationComponent.ImageGenerationResponse) :
  ImageGenerationComponent.history (ImageGenerationComponent.onNext this response)
  = if (length (ImageGenerationComponent.history this) <? 12)%nat
    then ImageGenerationComponent.stamped this response
           :: ImageGenerationComponent.history this
    else ImageGenerationComponent.stamped this response
           :: removelast (ImageGenerationComponent.history this).
Proof.
  unfold ImageGenerationComponent.onNext; simpl.
  set (h := ImageGenerationComponent.history this).
  set (entry := ImageGenerationComponent.stamped this response).
  destruct (length h <? 12)%nat eqn:Hlt.
  - apply Nat.ltb_lt in Hlt.
    destruct (12 <? S (length h))%nat eqn:Hgt; [| reflexivity].
    apply Nat.ltb_lt in Hgt. lia.
  - apply Nat.ltb_ge in Hlt.
    destruct (12 <? S (length h))%nat eqn:Hgt.
    + unfold Js.pop. destruct h as [|x h']; [simpl in Hlt; lia | reflexivity].
    + apply Nat.ltb_ge in Hgt. lia.
Qed.

Lemma length_removelast {A : Type} (l : list A) :
  length (removelast l) = pred (length l).
Proof.
  rewrite removelast_firstn_len, length_firstn. lia.
Qed.

Lemma step_keeps_history_bounded (this : ImageGenerationComponent.State)
    (ev : ImageGenerationComponent.Event) :
  length (ImageGenerationComponent.history this) <= 12 ->
  length (ImageGenerationComponent.history (ImageGenerationComponent.step this ev)) <= 12.
Proof.
  intros Hb.
  destruct ev as [s | s | | response | err | item |];
    cbn [ImageGenerationComponent.step]; try (simpl; assumption).
  - unfold ImageGenerationComponent.generateImage.
    destruct (Js.blank _); simpl; assumption.
  - rewrite onNext_history.
    destruct (length (ImageGenerationComponent.history this) <? 12)%nat eqn:Hlt; simpl.
    + apply Nat.ltb_lt in Hlt. lia.
    + rewrite length_removelast. lia.
Qed.

Lemma fold_keeps_history_bounded (events : list ImageGenerationComponent.Event) :
  forall this,
    length (ImageGenerationComponent.history this) <= 12 ->
    length (ImageGenerationComponent.history
              (fold_left ImageGenerationComponent.step events this)) <= 12.
Proof.
  induction events as [|ev events IH]; intros this Hb; simpl.
  - assumption.
  - apply IH, step_keeps_history_bounded, Hb.
Qed.

(** C2: the history never holds more than 12 entries, in any state the
    component reaches from its initial one; an insertion puts the new
    response (stamped with the prompt and the style) at index 0; below 12
    entries nothing is evicted; at 12 entries exactly the entry at index 11
    goes and the 11 others follow the new one in their order. *)
Theorem history_at_most_12 :
  forall (events : list ImageGenerationComponent.Event)
         (response : ImageGenerationComponent.ImageGenerationResponse),
    let this := ImageGenerationComponent.run events in
    let before := ImageGenerationComponent.history this in
    let entry := ImageGenerationComponent.stamped this response in
    let after :=
      ImageGenerationComponent.history (ImageGenerationComponent.onNext this response) in
    length before <= 12
    /\ length after <= 12
    /\ nth_error after 0 = Some entry
    /\ (length before < 12 -> after = entry :: before)
    /\ (length before = 12 ->
        after = entry :: firstn 11 before
        /\ exists oldest,
             nth_error before 11 = Some oldest
             /\ before = firstn 11 before ++ [oldest]).
Proof.
  intros events response this before entry after.
  assert (Hb : length before <= 12).
  { apply fold_keeps_history_bounded. simpl. lia. }
  assert (Hafter : after = if (length before <? 12)%nat
                           then entry :: before
                           else entry :: removelast before).
  { apply onNext_history. }
  split; [exact Hb |]. split; [| split; [| split]].
  - rewrite Hafter. destruct (length before <? 12)%nat eqn:Hlt; simpl.
    + apply Nat.ltb_lt in Hlt. lia.
    + rewrite length_removelast. lia.
  - rewrite Hafter. destruct (length before <? 12)%nat; reflexivity.
  - intros Hlt. rewrite Hafter.
    apply Nat.ltb_lt in Hlt. rewrite Hlt. reflexivity.
  - intros Hfull. split.
    + rewrite Hafter.
      replace (length before <? 12)%nat with false
        by (symmetry; apply Nat.ltb_ge; lia).
      rewrite removelast_firstn_len, Hfull. reflexivity.
    + assert (Hne : before <> []) by (intros E; rewrite E in Hfull; discriminate).
      destruct (exists_last Hne) as [front [oldest Hsplit]].
      assert (Hlen : length front = 11).
      { rewrite Hsplit, length_app in Hfull. simpl in Hfull. lia. }
      exists oldest. rewrite Hsplit. split.
      * rewrite nth_error_app2 by lia. rewrite Hlen. reflexivity.
      * rewrite firstn_app, Hlen, firstn_all2 by lia. simpl.
        rewrite app_nil_r. reflexivity.
Qed.

(** ** The lists of the resume form *)

Lemma splice1_length {A : Type} (start : Z) (arr : list A) :
  length arr - 1 <= length (Js.splice1 start arr).
Proof.
  unfold Js.splice1. rewrite length_app, length_firstn, length_skipn. lia.
Qed.

Lemma splice1_nonempty {A : Type} (start : Z) (arr : list A) :
  1 < length arr -> Js.splice1 start arr <> [].
Proof.
  intros Hlen Hnil. pose proof (splice1_length start arr) as Hge.
  rewrite Hnil in Hge. simpl in Hge. lia.
Qed.

Lemma set_nth_nonempty {A : Type} (arr : list A) (i : nat) (x : A) :
  arr <> [] -> Js.set_nth arr i x <> [].
Proof.
  destruct arr as [|hd tl]; [congruence |]. destruct i; discriminate.
Qed.

Lemma set_nth_Forall {A : Type} (P : A -> Prop) (arr : list A) (i : nat) (x : A) :
  Forall P arr -> P x -> Forall P (Js.set_nth arr i x).
Proof.
  intros Hall Hx. revert i.
  induction Hall as [|hd tl Hhd Htl IH]; intros i; simpl.
  - constructor.
  - destruct i; constructor; auto.
Qed.

Lemma Forall_firstn {A : Type} (P : A -> Prop) (n : nat) (l : list A) :
  Forall P l -> Forall P (firstn n l).
Proof.
  intros Hall. revert n.
  induction Hall as [|hd tl Hhd Htl IH]; intros [|n]; simpl; constructor; auto.
Qed.

Lemma Forall_skipn {A : Type} (P : A -> Prop) (n : nat) (l : list A) :
  Forall P l -> Forall P (skipn n l).
Proof.
  intros Hall. revert n.
  induction Hall as [|hd tl Hhd Htl IH]; intros [|n]; simpl; auto.
Qed.

Lemma splice1_Forall {A : Type} (P : A -> Prop) (start : Z) (arr : list A) :
  Forall P arr -> Forall P (Js.splice1 start arr).
Proof.
  intros Hall. unfold Js.splice1. apply Forall_app. split.
  - apply Forall_firstn, Hall.
  - apply Forall_skipn, Hall.
Qed.

Lemma app_nonempty {A : Type} (l : list A) (x : A) : l ++ [x] <> [].
Proof.
  destruct l; discriminate.
Qed.

Lemma generator_call_populated (c : ResumeModel.Call) (d : ResumeModel.ResumeRequest) :
  SharedResumeData.populated d ->
  SharedResumeData.populated (ResumeGeneratorComponent.call c d).
Proof.
  intros (Hexp & Hedu & Hresp). unfold SharedResumeData.populated.
  destruct c as [| index | expIndex | expIndex respIndex | | index]; simpl.
  - repeat split; simpl; auto using app_nonempty.
    apply Forall_app. split; [assumption |].
    constructor; [discriminate | constructor].
  - unfold ResumeGeneratorComponent.removeExperience.
    destruct (1 <? length (ResumeModel.experience d))%nat eqn:Hlen; simpl.
    + apply Nat.ltb_lt in Hlen.
      repeat split; auto using splice1_nonempty, splice1_Forall.
    + repeat split; assumption.
  - unfold ResumeGeneratorComponent.addResponsibility.
    destruct (Js.index (ResumeModel.experience d) expIndex) as [e|]; simpl.
    + repeat split; auto using set_nth_nonempty.
      apply set_nth_Forall; [assumption | simpl; apply app_nonempty].
    + repeat split; assumption.
  - unfold ResumeGeneratorComponent.removeResponsibility.
    destruct (Js.index (ResumeModel.experience d) expIndex) as [e|]; simpl.
    + destruct (1 <? length (ResumeModel.responsibilities e))%nat eqn:Hlen; simpl.
      * apply Nat.ltb_lt in Hlen.
        repeat split; auto using set_nth_nonempty.
        apply set_nth_Forall; [assumption | simpl; now apply splice1_nonempty].
      * repeat split; assumption.
    + repeat split; assumption.
  - repeat split; simpl; auto using app_nonempty.
  - unfold ResumeGeneratorComponent.removeEducation.
    destruct (1 <? length (ResumeModel.education d))%nat eqn:Hlen; simpl.
    + apply Nat.ltb_lt in Hlen. repeat split; auto using splice1_nonempty.
    + repeat split; assumption.
Qed.

(** The two components run the same code on the data. *)
Lemma form_call_is_generator_call (c : ResumeModel.Call) (d : ResumeModel.ResumeRequest) :
  ResumeFormComponent.call c d = ResumeGeneratorComponent.call c d.
Proof.
  destruct c as [| index | expIndex | expIndex respIndex | | index]; simpl;
    try reflexivity.
  - unfold ResumeFormComponent.removeExperience,
      ResumeGeneratorComponent.removeExperience.
    destruct (1 <? _)%nat; reflexivity.
  - unfold ResumeFormComponent.addResponsibility,
      ResumeGeneratorComponent.addResponsibility.
    destruct (Js.index _ _); reflexivity.
  - unfold ResumeFormComponent.removeResponsibility,
      ResumeGeneratorComponent.removeResponsibility.
    destruct (Js.index _ _) as [e|]; [| reflexivity].
    destruct (1 <? _)%nat; reflexivity.
  - unfold ResumeFormComponent.removeEducation,
      ResumeGeneratorComponent.removeEducation.
    destruct (1 <? _)%nat; reflexivity.
Qed.

Lemma shared_call_populated (who : SharedResumeData.Component)
    (c : ResumeModel.Call) (d : ResumeModel.ResumeRequest) :
  SharedResumeData.populated d ->
  SharedResumeData.populated (SharedResumeData.call who c d).
Proof.
  intros Hd. destruct who; simpl.
  - rewrite form_call_is_generator_call. now apply generator_call_populated.
  - now apply generator_call_populated.
Qed.

Lemma generator_initially_populated :
  SharedResumeData.populated ResumeGeneratorComponent.resumeData.
Proof.
  repeat split; simpl; try discriminate.
  constructor; [discriminate | constructor].
Qed.

(** C9: in both components the experience list, the education list and the
    responsibilities list of every experience entry stay non-empty under any
    sequence of calls of their methods (they are non-empty in the resume
    generator's initial data), and a remove on a list of one entry leaves
    the data untouched. *)
Theorem resume_lists_never_empty :
  forall (calls : list (SharedResumeData.Component * ResumeModel.Call))
         (d : ResumeModel.ResumeRequest),
    SharedResumeData.populated d ->
    SharedResumeData.populated (SharedResumeData.run calls d)
    /\ SharedResumeData.populated
         (SharedResumeData.run calls ResumeGeneratorComponent.resumeData)
    /\ (forall who index,
          length (ResumeModel.experience d) = 1 ->
          SharedResumeData.call who (ResumeModel.RemoveExperience index) d = d)
    /\ (forall who index,
          length (ResumeModel.education d) = 1 ->
          SharedResumeData.call who (ResumeModel.RemoveEducation index) d = d)
    /\ (forall who expIndex respIndex e,
          Js.index (ResumeModel.experience d) expIndex = Some e ->
          length (ResumeModel.responsibilities e) = 1 ->
          SharedResumeData.call who
            (ResumeModel.RemoveResponsibility expIndex respIndex) d = d).
Proof.
  intros calls d Hd.
  assert (Hrun : forall d0, SharedResumeData.populated d0 ->
                            SharedResumeData.populated (SharedResumeData.run calls d0)).
  { unfold SharedResumeData.run. induction calls as [|[who c] calls IH]; intros d0 H0.
    - exact H0.
    - simpl. apply IH, shared_call_populated, H0. }
  split; [apply Hrun, Hd |].
  split; [apply Hrun, generator_initially_populated |].
  split; [| split].
  - intros who index Hone. destruct who; simpl;
      [unfold ResumeFormComponent.removeExperience
      | unfold ResumeGeneratorComponent.removeExperience];
      rewrite Hone; reflexivity.
  - intros who index Hone. destruct who; simpl;
      [unfold ResumeFormComponent.removeEducation
      | unfold ResumeGeneratorComponent.removeEducation];
      rewrite Hone; reflexivity.
  - intros who expIndex respIndex e He Hone. destruct who; simpl;
      [unfold ResumeFormComponent.removeResponsibility
      | unfold ResumeGeneratorComponent.removeResponsibility];
      rewrite He, Hone; reflexivity.
Qed.

Lemma resume_lists_never_empty_witness :
  SharedResumeData.populated
    (SharedResumeData.run
       [(SharedResumeData.Form, ResumeModel.RemoveExperience 0);
        (SharedResumeData.Generator, ResumeModel.AddExperience);
        (SharedResumeData.Form, ResumeModel.RemoveResponsibility 0 0);
        (SharedResumeData.Generator, ResumeModel.RemoveExperience (-1));
        (SharedResumeData.Generator, ResumeModel.RemoveEducation 0)]
       ResumeGeneratorComponent.resumeData).
Proof.
  refine (proj1 (resume_lists_never_empty _ ResumeGeneratorComponent.resumeData _)).
  repeat split; simpl; try discriminate.
  constructor; [discriminate | constructor].
Defined.

(** ** The ATS analyzer's validation *)

Lemma timeout_keeps_early {B R : Type} (due : N) (r : Rx.Run B R) (e : Rx.Effect B) :
  (0 < due)%N -> In (0%N, e) (Rx.log r) -> In (0%N, e) (Rx.log (Rx.timeout due r)).
Proof.
  intros Hdue Hin. unfold Rx.timeout.
  assert (Hexp : In (0%N, e) (filter (fun p => (fst p <? due)%N) (Rx.log r))).
  { apply filter_In. split; [assumption | now apply N.ltb_lt]. }
  destruct (Rx.outcome r) as [t v | t err | | t];
    try destruct (t <? due)%N; simpl; assumption.
Qed.

Lemma catchError_keeps {B R : Type} (selector : Http.Thrown -> list (Rx.Effect B) * Http.Thrown)
    (r : Rx.Run B R) (p : N * Rx.Effect B) :
  In p (Rx.log r) -> In p (Rx.log (Rx.catchError selector r)).
Proof.
  intros Hin. unfold Rx.catchError.
  destruct (Rx.outcome r) as [t v | t err | | t]; try assumption.
  destruct (selector err) as [effects err']. simpl.
  apply in_or_app. now left.
Qed.

Lemma intercepted_sends_first {B R : Type} (backend : Http.HttpHandler B R)
    (fuel : nat) (req : Http.HttpRequest B) :
  In (0%N, Rx.Request 0 req) (Rx.log (HttpClient.intercepted backend (S fuel) req)).
Proof.
  unfold HttpClient.intercepted, HttpErrorInterceptor.intercept.
  apply catchError_keeps. simpl. now left.
Qed.

(** C6: with an empty resume text or an empty job description,
    [analyzeResume] sets the validation error and does nothing else: no
    request is sent.  A request appears only when both fields are
    non-empty, and then the POST to /ats/analyze with the two fields is
    sent at once (here through the intercepted client, and through one
    without interceptor). *)
Theorem analyzeResume_validates_first :
  forall (R : Type) (http : HttpClient.Client AtsService.ATSRequest R)
         (apiUrl : string) (this : AtsAnalyzerComponent.State R),
    (AtsAnalyzerComponent.resumeText this = "" \/
     AtsAnalyzerComponent.jobDescription this = "" ->
     AtsAnalyzerComponent.analyzeResume http apiUrl this
     = ({| AtsAnalyzerComponent.resumeText := AtsAnalyzerComponent.resumeText this;
           AtsAnalyzerComponent.jobDescription := AtsAnalyzerComponent.jobDescription this;
           AtsAnalyzerComponent.loading := AtsAnalyzerComponent.loading this;
           AtsAnalyzerComponent.error := "Please fill both fields";
           AtsAnalyzerComponent.result := AtsAnalyzerComponent.result this |}, []))
    /\ (forall t k req,
          In (t, Rx.Request k req)
             (snd (AtsAnalyzerComponent.analyzeResume http apiUrl this)) ->
          AtsAnalyzerComponent.resumeText this <> "" /\
          AtsAnalyzerComponent.jobDescription this <> "")
    /\ (AtsAnalyzerComponent.resumeText this <> "" ->
        AtsAnalyzerComponent.jobDescription this <> "" ->
        forall (backend : Http.HttpHandler AtsService.ATSRequest R) (fuel : nat),
          let sent :=
            (0%N, Rx.Request 0
                    {| Http.method := Http.POST;
                       Http.url := (apiUrl ++ "/ats/analyze")%string;
                       Http.body :=
                         Some {| AtsService.resume_text :=
                                   AtsAnalyzerComponent.resumeText this;
                                 AtsService.job_description :=
                                   AtsAnalyzerComponent.jobDescription this |};
                       Http.headers := [("Content-Type", "application/json")] |}) in
          In sent (snd (AtsAnalyzerComponent.analyzeResume
                          (HttpClient.intercepted backend (S fuel)) apiUrl this))
          /\ In sent (snd (AtsAnalyzerComponent.analyzeResume
                             (HttpClient.bare backend) apiUrl this))).
Proof.
  intros R http apiUrl this. unfold AtsAnalyzerComponent.analyzeResume.
  destruct (negb (Js.truthy (AtsAnalyzerComponent.resumeText this))
            || negb (Js.truthy (AtsAnalyzerComponent.jobDescription this))) eqn:Hc.
  - apply orb_true_iff in Hc.
    assert (Hempty : AtsAnalyzerComponent.resumeText this = "" \/
                     AtsAnalyzerComponent.jobDescription this = "").
    { destruct Hc as [Hc | Hc]; apply negb_true_iff, truthy_false_iff in Hc; tauto. }
    split; [reflexivity |]. split.
    + simpl. intros t k req [].
    + intros H1 H2. exfalso. tauto.
  - apply orb_false_iff in Hc. destruct Hc as [H1 H2].
    apply negb_false_iff, truthy_iff in H1.
    apply negb_false_iff, truthy_iff in H2.
    split; [intros [He | He]; congruence |].
    split; [intros; split; assumption |].
    intros _ _ backend fuel. cbv zeta. simpl.
    unfold AtsService.analyzeResume, ApiService.post. split.
    + apply catchError_keeps, timeout_keeps_early; [reflexivity |].
      apply intercepted_sends_first.
    + apply catchError_keeps, timeout_keeps_early; [reflexivity |].
      unfold HttpClient.bare. simpl. now left.
Qed.

(** ** The interceptor's final-failure handler *)

Lemma retry_log_requests {B R : Type} (config : Rx.RetryConfig)
    (req : Http.HttpRequest B) (source : nat -> Http.Attempt R) (fuel : nat) :
  forall k soFar t,
    Forall Rx.is_request (Rx.log (Rx.retry config req source fuel k soFar t)).
Proof.
  induction fuel as [|fuel IH]; intros k soFar t; simpl.
  - constructor.
  - constructor; [exact I |].
    destruct (Http.ending (source k)) as [r | e |]; simpl; try constructor.
    case_if;
      [apply IH | constructor].
Qed.

Lemma replay_skips_requests {B : Type} (generateId : nat -> string)
    (front rest : list (N * Rx.Effect B)) :
  Forall Rx.is_request front ->
  forall k st,
    Effects.replay generateId k (front ++ rest) st
    = Effects.replay generateId k rest st.
Proof.
  induction 1 as [|[t e] front He Hfront IH]; intros k st; simpl.
  - reflexivity.
  - destruct e; simpl in He; try contradiction. apply IH.
Qed.

Lemma notified_skips_requests {B : Type} (front rest : list (N * Rx.Effect B)) :
  Forall Rx.is_request front ->
  Rx.notified_in (front ++ rest) = Rx.notified_in rest.
Proof.
  unfold Rx.notified_in.
  induction 1 as [|[t e] front He Hfront IH]; simpl.
  - reflexivity.
  - destruct e; simpl in He; try contradiction. exact IH.
Qed.

Lemma or_else_nonempty (a : option string) (b : string) :
  b <> "" -> Js.or_else a b <> "".
Proof.
  intros Hb. unfold Js.or_else. destruct a as [s|]; [| assumption].
  destruct (Js.truthy s) eqn:Ht; [now apply truthy_iff | assumption].
Qed.

Lemma or_else_present (d b : string) : d <> "" -> Js.or_else (Some d) b = d.
Proof.
  intros Hd. unfold Js.or_else. apply truthy_iff in Hd. now rewrite Hd.
Qed.

Lemma or_else_absent (a : option string) (b : string) :
  a = None \/ a = Some "" -> Js.or_else a b = b.
Proof.
  intros [-> | ->]; reflexivity.
Qed.

(** With no event before the failures, the first failure is retried once,
    1000 ms later, and the second failure is final. *)
Lemma retry_once_without_events {B R : Type} (req : Http.HttpRequest B)
    (source : nat -> Http.Attempt R) (fuel : nat) (e0 e1 : Http.HttpErrorResponse) :
  Http.pre (source 0%nat) = [] -> Http.ending (source 0%nat) = Http.Fails e0 ->
  Http.pre (source 1%nat) = [] -> Http.ending (source 1%nat) = Http.Fails e1 ->
  Rx.retry HttpErrorInterceptor.retryConfig req source (S (S fuel)) 0 0 0
  = {| Rx.outcome :=
         Rx.Throws (Http.dur (source 0%nat) + 1000 + Http.dur (source 1%nat))
           (Http.OfHttp e1);
       Rx.log := [(0%N, Rx.Request 0 req);
                  ((Http.dur (source 0%nat) + 1000)%N, Rx.Request 1 req)] |}.
Proof.
  intros Hp0 He0 Hp1 He1.
  cbn [Rx.retry]. rewrite Hp0, He0. cbn [HttpErrorInterceptor.retryConfig
    Rx.count Rx.delay Nat.ltb Nat.leb]. rewrite Hp1, He1. reflexivity.
Qed.

(** C3: for an error response whose status is one of 400, 401, 403, 404,
    408, 500, 503, 0 the message of the final-failure handler is never
    empty; it is the canned message of that status, except that for 400 and
    500 a non-empty [detail] string in the server's body is taken instead
    (a client-side [ErrorEvent] gets "Client Error: " and its text); and
    the handler, whenever it runs, rethrows an [Error] with that message
    and pushes exactly one notification, an error one carrying that
    message, at the end of the queue, whatever the queue held.  The handler
    does run: when a request and its one retry fail without an event, the
    second time with this response, the interceptor ends in that [Error]
    1000 ms plus the two durations after the start, with exactly that one
    notification pushed. *)
Theorem final_failure_message_and_notification :
  forall error : Http.HttpErrorResponse,
    In (Http.status error) [400; 401; 403; 404; 408; 500; 503; 0]%Z ->
    let msg := HttpErrorInterceptor.errorMessage error in
    let absent := Http.error error = Http.NoBody
                  \/ Http.error error = Http.ServerBody None
                  \/ Http.error error = Http.ServerBody (Some "") in
    let notification (i : string) :=
      {| NotificationService.id := i;
         NotificationService.type := NotificationService.Error;
         NotificationService.message := msg;
         NotificationService.duration := Some 7000%N |} in
    msg <> ""
    /\ (forall m, Http.error error = Http.ErrorEvent m ->
                  msg = ("Client Error: " ++ m)%string)
    /\ ((forall m, Http.error error <> Http.ErrorEvent m) ->
        (Http.status error = 0%Z ->
         msg = "Cannot connect to server. Please check your internet connection.")
        /\ (Http.status error = 400%Z ->
            (forall d, Http.error error = Http.ServerBody (Some d) -> d <> "" ->
                       msg = d)
            /\ (absent -> msg = "Invalid request. Please check your input."))
        /\ (Http.status error = 401%Z -> msg = "Unauthorized. Please log in.")
        /\ (Http.status error = 403%Z -> msg = "Access forbidden.")
        /\ (Http.status error = 404%Z -> msg = "Resource not found.")
        /\ (Http.status error = 408%Z -> msg = "Request timeout. Please try again.")
        /\ (Http.status error = 500%Z ->
            (forall d, Http.error error = Http.ServerBody (Some d) -> d <> "" ->
                       msg = d)
            /\ (absent -> msg = "Server error. Please try again later."))
        /\ (Http.status error = 503%Z -> msg = "Service temporarily unavailable."))
    /\ (forall (B : Type) (t : N) (generateId : nat -> string) (k : nat)
               (st : NotificationService.State),
          let handled := HttpErrorInterceptor.onError (B := B) (Http.OfHttp error) in
          snd handled = Http.OfError msg
          /\ Rx.notified_in (map (fun e => (t, e)) (fst handled)) = [msg]
          /\ NotificationService.notifications
               (Effects.replay generateId k (map (fun e => (t, e)) (fst handled)) st)
             = NotificationService.notifications st ++ [notification (generateId k)])
    /\ (forall (B R : Type) (request : Http.HttpRequest B)
               (next : Http.HttpHandler B R) (fuel : nat)
               (e0 : Http.HttpErrorResponse)
               (generateId : nat -> string) (st : NotificationService.State),
          Http.pre (next request 0%nat) = [] ->
          Http.ending (next request 0%nat) = Http.Fails e0 ->
          Http.pre (next request 1%nat) = [] ->
          Http.ending (next request 1%nat) = Http.Fails error ->
          let run := HttpErrorInterceptor.intercept request next (S (S fuel)) in
          Rx.outcome run
          = Rx.Throws (Http.dur (next request 0%nat) + 1000
                       + Http.dur (next request 1%nat)) (Http.OfError msg)
          /\ Rx.notified run = [msg]
          /\ NotificationService.notifications
               (Effects.replay generateId 0 (Rx.log run) st)
             = NotificationService.notifications st ++ [notification (generateId 0%nat)]).
Proof.
  intros error Hstatus msg absent notification.
  assert (Hserver : (forall m, Http.error error <> Http.ErrorEvent m) ->
                    msg = HttpErrorInterceptor.getServerErrorMessage error).
  { intros Hnot. subst msg. unfold HttpErrorInterceptor.errorMessage.
    destruct (Http.error error) as [| m | d]; try reflexivity.
    exfalso. now apply (Hnot m). }
  assert (Habsent : absent ->
                    Http.detail_of (Http.error error) = None
                    \/ Http.detail_of (Http.error error) = Some "").
  { intros [-> | [-> | ->]]; simpl; tauto. }
  split; [| split; [| split; [| split]]].
  - subst msg. unfold HttpErrorInterceptor.errorMessage.
    destruct (Http.error error) as [| m | d] eqn:Hbody; try discriminate;
      unfold HttpErrorInterceptor.getServerErrorMessage;
      simpl in Hstatus;
      repeat (destruct Hstatus as [<- | Hstatus]);
      try contradiction; try discriminate;
      apply or_else_nonempty; discriminate.
  - intros m Hm. subst msg. unfold HttpErrorInterceptor.errorMessage.
    now rewrite Hm.
  - intros Hnot. rewrite (Hserver Hnot).
    unfold HttpErrorInterceptor.getServerErrorMessage.
    repeat split; intros;
      repeat match goal with
             | Hs : Http.status error = _ |- _ => rewrite Hs; clear Hs
             end;
      try reflexivity;
      first [ match goal with
              | Hd : Http.error error = Http.ServerBody (Some _) |- _ =>
                  rewrite Hd; now apply or_else_present
              end
            | apply or_else_absent; now apply Habsent ].
  - intros B t generateId k st handled. subst handled.
    cbn [HttpErrorInterceptor.onError fst snd map]. fold msg.
    repeat split.
  - intros B R request next fuel e0 generateId st Hp0 He0 Hp1 He1 run. subst run.
    unfold HttpErrorInterceptor.intercept.
    rewrite (retry_once_without_events request (next request) fuel e0 error
               Hp0 He0 Hp1 He1).
    unfold Rx.catchError.
    cbn [Rx.outcome Rx.log HttpErrorInterceptor.onError map app]. fold msg.
    repeat split.
Qed.

Lemma final_failure_message_and_notification_witness :
  NotificationService.notifications
    (Effects.replay (fun _ => "notif_1") 0
       (Rx.log (HttpErrorInterceptor.intercept (R := unit) Scenarios.analyzeRequest
                  (Scenarios.failsSilently Scenarios.notFoundWithDetail) 2))
       NotificationService.initial)
  = [{| NotificationService.id := "notif_1";
        NotificationService.type := NotificationService.Error;
        NotificationService.message := "Resource not found.";
        NotificationService.duration := Some 7000%N |}].
Proof.
  refine (proj2 (proj2
            (proj2 (proj2 (proj2 (proj2
               (final_failure_message_and_notification
                  Scenarios.notFoundWithDetail _))))
               AtsService.ATSRequest unit Scenarios.analyzeRequest
               (Scenarios.failsSilently Scenarios.notFoundWithDetail) 0
               Scenarios.notFoundWithDetail (fun _ => "notif_1")
               NotificationService.initial eq_refl eq_refl eq_refl eq_refl))).
  simpl. tauto.
Defined.

(** ** Timeouts of the client wrapper *)

Lemma timeout_bounded {B R : Type} (due : N) (r : Rx.Run B R) :
  Rx.bounded_by due (Rx.timeout due r).
Proof.
  unfold Rx.bounded_by, Rx.timeout.
  destruct (Rx.outcome r) as [t v | t err | | t] eqn:Hout; simpl;
    try destruct (t <? due)%N eqn:Hlt; simpl; try rewrite Hout;
    try apply N.ltb_lt in Hlt; lia.
Qed.

Lemma catchError_bounded {B R : Type}
    (selector : Http.Thrown -> list (Rx.Effect B) * Http.Thrown)
    (due : N) (r : Rx.Run B R) :
  Rx.bounded_by due r -> Rx.bounded_by due (Rx.catchError selector r).
Proof.
  unfold Rx.bounded_by, Rx.catchError.
  destruct (Rx.outcome r) as [t v | t err | | t] eqn:Hout;
    try (rewrite Hout; tauto).
  destruct (selector err) as [effects err']. simpl. tauto.
Qed.

(** The instant at which [retry] runs out of fuel grows with the fuel: every
    resubscription waits for [delay]. *)
Lemma retry_unfinished_late {B R : Type} (config : Rx.RetryConfig)
    (req : Http.HttpRequest B) (source : nat -> Http.Attempt R) (fuel : nat) :
  forall k soFar t t',
    Rx.outcome (Rx.retry config req source fuel k soFar t) = Rx.Unfinished t' ->
    (t + N.of_nat fuel * Rx.delay config <= t')%N.
Proof.
  induction fuel as [|fuel IH]; intros k soFar t t'.
  - simpl. intros [= <-]. lia.
  - cbn [Rx.retry Rx.logged Rx.outcome].
    destruct (Http.ending (source k)) as [r | e |]; try discriminate.
    case_if;
      try discriminate.
    intros Hout. apply IH in Hout. lia.
Qed.

Lemma catchError_unfinished {B R : Type}
    (selector : Http.Thrown -> list (Rx.Effect B) * Http.Thrown)
    (r : Rx.Run B R) (t : N) :
  Rx.outcome (Rx.catchError selector r) = Rx.Unfinished t ->
  Rx.outcome r = Rx.Unfinished t.
Proof.
  unfold Rx.catchError.
  destruct (Rx.outcome r) as [t0 v | t0 err | | t0] eqn:Hout;
    try (rewrite Hout; tauto).
  destruct (selector err) as [effects err']. discriminate.
Qed.

Lemma catchError_settled {B R : Type}
    (selector : Http.Thrown -> list (Rx.Effect B) * Http.Thrown)
    (r : Rx.Run B R) :
  Rx.settled r -> Rx.settled (Rx.catchError selector r).
Proof.
  unfold Rx.settled, Rx.catchError.
  destruct (Rx.outcome r) as [t0 v | t0 err | | t0] eqn:Hout;
    try (rewrite Hout; tauto).
  destruct (selector err) as [effects err']. simpl. tauto.
Qed.

Lemma timeout_settled {B R : Type} (due : N) (r : Rx.Run B R) :
  (forall t, Rx.outcome r = Rx.Unfinished t -> (due <= t)%N) ->
  Rx.settled (Rx.timeout due r).
Proof.
  intros Hlate. unfold Rx.settled, Rx.timeout.
  destruct (Rx.outcome r) as [t v | t err | | t] eqn:Hout; simpl;
    try exact I;
    destruct (t <? due)%N eqn:Hlt; simpl; try rewrite Hout; try exact I.
  specialize (Hlate t eq_refl). apply N.ltb_lt in Hlt. lia.
Qed.

Lemma intercepted_call_settles {B R : Type} (backend : Http.HttpHandler B R)
    (fuel : nat) (req : Http.HttpRequest B) (due : N) :
  (due <= N.of_nat fuel * 1000)%N ->
  Rx.settled (Rx.catchError ApiService.handleError
                (Rx.timeout due (HttpClient.intercepted backend fuel req))).
Proof.
  intros Hfuel. apply catchError_settled, timeout_settled.
  intros t Hout. unfold HttpClient.intercepted, HttpErrorInterceptor.intercept in Hout.
  apply catchError_unfinished, retry_unfinished_late in Hout.
  simpl in Hout. lia.
Qed.

Lemma bare_hanging_times_out {B R : Type} (req : Http.HttpRequest B) (due : N) :
  Rx.outcome (Rx.catchError ApiService.handleError
                (Rx.timeout due (HttpClient.bare (R := R) Scenarios.neverAnswers req)))
  = Rx.Throws due (Http.OfError "Timeout has occurred").
Proof.
  reflexivity.
Qed.

(** C7: every call through [ApiService] is over by its timeout, which is
    120000 ms for [get], [post], [put] and [delete] when no override is
    given and 300000 ms for the image-generation call (an override given
    to [post] is the bound instead); a server that never answers is given
    up at exactly that instant, and behind the interceptor the call has
    then delivered a value or an error. *)
Theorem calls_bounded_by_timeout :
  forall (B R : Type) (http : HttpClient.Client B R) (apiUrl endpoint : string)
         (data : B),
    ApiService.defaultTimeout = 120000%N
    /\ Rx.bounded_by 120000 (ApiService.get http apiUrl endpoint None)
    /\ Rx.bounded_by 120000 (ApiService.post http apiUrl endpoint data None)
    /\ Rx.bounded_by 120000 (ApiService.put http apiUrl endpoint data)
    /\ Rx.bounded_by 120000 (ApiService.delete http apiUrl endpoint)
    /\ (forall ms : N, ms <> 0%N ->
          Rx.bounded_by ms (ApiService.post http apiUrl endpoint data (Some ms)))
    /\ (forall (client : HttpClient.Client ImageService.ImageGenerationRequest R)
               (request : ImageService.ImageGenerationRequest),
          Rx.bounded_by 300000 (ImageService.generateImage client apiUrl request))
    /\ (let silent := HttpClient.bare (B := B) (R := R) Scenarios.neverAnswers in
        let expired due := Rx.Throws (A := R) due (Http.OfError "Timeout has occurred") in
        Rx.outcome (ApiService.get silent apiUrl endpoint None) = expired 120000%N
        /\ Rx.outcome (ApiService.post silent apiUrl endpoint data None) = expired 120000%N
        /\ Rx.outcome (ApiService.put silent apiUrl endpoint data) = expired 120000%N
        /\ Rx.outcome (ApiService.delete silent apiUrl endpoint) = expired 120000%N
        /\ forall request,
             Rx.outcome (ImageService.generateImage
                           (HttpClient.bare (R := R) Scenarios.neverAnswers)
                           apiUrl request) = expired 300000%N)
    /\ (forall (backend : Http.HttpHandler B R) (fuel : nat),
          let client := HttpClient.intercepted backend (120 + fuel) in
          Rx.settled (ApiService.get client apiUrl endpoint None)
          /\ Rx.settled (ApiService.post client apiUrl endpoint data None)
          /\ Rx.settled (ApiService.put client apiUrl endpoint data)
          /\ Rx.settled (ApiService.delete client apiUrl endpoint))
    /\ (forall (backend : Http.HttpHandler ImageService.ImageGenerationRequest R)
               (fuel : nat) (request : ImageService.ImageGenerationRequest),
          Rx.settled (ImageService.generateImage
                        (HttpClient.intercepted backend (300 + fuel)) apiUrl request)).
Proof.
  intros B R http apiUrl endpoint data.
  split; [reflexivity |].
  split; [apply catchError_bounded, timeout_bounded |].
  split; [apply catchError_bounded, timeout_bounded |].
  split; [apply catchError_bounded, timeout_bounded |].
  split; [apply catchError_bounded, timeout_bounded |].
  split.
  { intros ms Hms. unfold ApiService.post, ApiService.timeoutOr.
    apply N.eqb_neq in Hms. rewrite Hms.
    apply catchError_bounded, timeout_bounded. }
  split.
  { intros client request. apply catchError_bounded, timeout_bounded. }
  split.
  { cbv zeta. repeat split; intros; apply bare_hanging_times_out. }
  split.
  { intros backend fuel client. subst client.
    repeat split; apply intercepted_call_settles;
      unfold ApiService.timeoutOr, ApiService.defaultTimeout; lia. }
  intros backend fuel request.
  apply intercepted_call_settles.
  change (ApiService.timeoutOr (Some 300000%N)) with 300000%N. lia.
Qed.

(** ** Error translation of the client wrapper *)

Lemma requests_in_app {B : Type} (l1 l2 : list (N * Rx.Effect B)) :
  Rx.requests_in (l1 ++ l2) = Rx.requests_in l1 ++ Rx.requests_in l2.
Proof.
  unfold Rx.requests_in. apply flat_map_app.
Qed.

Lemma requests_in_filter_incl {B : Type} (f : N * Rx.Effect B -> bool)
    (l : list (N * Rx.Effect B)) :
  incl (Rx.requests_in (filter f l)) (Rx.requests_in l).
Proof.
  unfold Rx.requests_in. intros x Hx.
  apply in_flat_map in Hx. destruct Hx as [p [Hp Hx]].
  apply filter_In in Hp. apply in_flat_map. exists p. tauto.
Qed.

Lemma timeout_requests_incl {B R : Type} (due : N) (r : Rx.Run B R) :
  incl (Rx.requests (Rx.timeout due r)) (Rx.requests r).
Proof.
  unfold Rx.requests, Rx.timeout.
  destruct (Rx.outcome r) as [t v | t err | | t];
    try destruct (t <? due)%N; simpl;
    try apply incl_refl; apply requests_in_filter_incl.
Qed.

Lemma handleError_requests {B R : Type} (r : Rx.Run B R) :
  Rx.requests (Rx.catchError ApiService.handleError r) = Rx.requests r.
Proof.
  unfold Rx.requests, Rx.catchError.
  destruct (Rx.outcome r) as [t v | t err | | t]; try reflexivity.
  simpl. rewrite requests_in_app. simpl. apply app_nil_r.
Qed.

Lemma wrapper_requests_incl {B R : Type} (due : N) (r : Rx.Run B R) :
  incl (Rx.requests (Rx.catchError ApiService.handleError (Rx.timeout due r)))
       (Rx.requests r).
Proof.
  rewrite handleError_requests. apply timeout_requests_incl.
Qed.

Lemma bare_sends_once {B R : Type} (backend : Http.HttpHandler B R)
    (req : Http.HttpRequest B) (due : N) :
  (0 < due)%N ->
  Rx.requests (Rx.timeout due (HttpClient.bare backend req)) = [(0%N, 0)].
Proof.
  intros Hdue. apply N.ltb_lt in Hdue.
  unfold HttpClient.bare, Rx.requests, Rx.timeout, Rx.logged.
  destruct (Http.ending (backend req 0)) as [r | e |];
    cbn [Rx.outcome Rx.log];
    try destruct (Http.dur (backend req 0%nat) <? due)%N;
    cbn [Rx.log filter fst]; rewrite ?Hdue; reflexivity.
Qed.

Lemma wrapper_translates {B R : Type} (due : N) (r : Rx.Run B R) (t : N)
    (err : Http.Thrown) :
  Rx.outcome (Rx.timeout due r) = Rx.Throws t err ->
  Rx.outcome (Rx.catchError ApiService.handleError (Rx.timeout due r))
  = Rx.Throws t (snd (ApiService.handleError (B := B) err)).
Proof.
  intros Hout. unfold Rx.catchError. rewrite Hout. reflexivity.
Qed.

(** C8, as the code has it: [ApiService] sends no request of its own (what
    a call sent is what the one subscription to the client sent; with no
    interceptor that is one request, whatever its fate), and a failure
    becomes one non-empty message: "Error: " and its text for a client-side
    [ErrorEvent]; otherwise the [detail] of the body when it is present
    and non-empty; otherwise the [message] of the error itself when
    non-empty; otherwise "Server error". *)
Theorem wrapper_no_retry_single_message :
  forall (B R : Type) (http : HttpClient.Client B R) (apiUrl endpoint : string)
         (data : B) (timeoutMs : option N),
    let sent method body :=
      http {| Http.method := method; Http.url := (apiUrl ++ endpoint)%string;
              Http.body := body; Http.headers := ApiService.getHeaders |} in
    incl (Rx.requests (ApiService.get http apiUrl endpoint timeoutMs))
         (Rx.requests (sent Http.GET None))
    /\ incl (Rx.requests (ApiService.post http apiUrl endpoint data timeoutMs))
            (Rx.requests (sent Http.POST (Some data)))
    /\ incl (Rx.requests (ApiService.put http apiUrl endpoint data))
            (Rx.requests (sent Http.PUT (Some data)))
    /\ incl (Rx.requests (ApiService.delete http apiUrl endpoint))
            (Rx.requests (sent Http.DELETE None))
    /\ (forall backend : Http.HttpHandler B R,
          Rx.requests (ApiService.post (HttpClient.bare backend) apiUrl endpoint
                         data timeoutMs) = [(0%N, 0)])
    /\ (forall (t : N) (err : Http.Thrown),
          Rx.outcome (Rx.timeout (ApiService.timeoutOr timeoutMs)
                        (sent Http.POST (Some data))) = Rx.Throws t err ->
          Rx.outcome (ApiService.post http apiUrl endpoint data timeoutMs)
          = Rx.Throws t (snd (ApiService.handleError (B := B) err)))
    /\ (forall err : Http.Thrown,
          let detail := Http.detail_of (Http.thrown_error err) in
          exists msg : string,
            snd (ApiService.handleError (B := B) err) = Http.OfError msg
            /\ fst (ApiService.handleError (B := B) err)
               = [Rx.ConsoleError "API Error:" msg]
            /\ msg <> ""
            /\ (forall m, Http.thrown_error err = Http.ErrorEvent m ->
                          msg = ("Error: " ++ m)%string)
            /\ ((forall m, Http.thrown_error err <> Http.ErrorEvent m) ->
                (forall d, detail = Some d -> d <> "" -> msg = d)
                /\ (detail = None \/ detail = Some "" ->
                    (Http.thrown_message err <> "" -> msg = Http.thrown_message err)
                    /\ (Http.thrown_message err = "" -> msg = "Server error")))).
Proof.
  intros B R http apiUrl endpoint data timeoutMs sent. subst sent. cbv beta.
  split; [apply wrapper_requests_incl |].
  split; [apply wrapper_requests_incl |].
  split; [apply wrapper_requests_incl |].
  split; [apply wrapper_requests_incl |].
  split.
  { intros backend. unfold ApiService.post. rewrite handleError_requests.
    apply bare_sends_once.
    unfold ApiService.timeoutOr, ApiService.defaultTimeout.
    destruct timeoutMs as [ms|]; [| lia].
    destruct (ms =? 0)%N eqn:Hz; [lia | apply N.eqb_neq in Hz; lia]. }
  split.
  { intros t err Hout. now apply wrapper_translates. }
  intros err detail. unfold ApiService.handleError. subst detail.
  destruct (Http.thrown_error err) as [| m | d] eqn:Hbody; cbn [fst snd].
  - eexists. split; [reflexivity |]. split; [reflexivity |].
    cbn [Http.detail_of Js.or_else].
    destruct (Js.truthy (Http.thrown_message err)) eqn:Hm.
    + split; [now apply truthy_iff |]. split; [discriminate |].
      intros _. split; [discriminate |]. intros _. split; [reflexivity |].
      intros He. apply truthy_iff in Hm. contradiction.
    + split; [discriminate |]. split; [discriminate |].
      intros _. split; [discriminate |]. intros _.
      apply truthy_false_iff in Hm. split; [congruence | reflexivity].
  - eexists. split; [reflexivity |]. split; [reflexivity |].
    split; [discriminate |]. split; [now intros m' [= ->] |].
    intros Hnot. exfalso. now apply (Hnot m).
  - eexists. split; [reflexivity |]. split; [reflexivity |].
    cbn [Http.detail_of].
    split.
    { apply or_else_nonempty.
      destruct (Js.truthy (Http.thrown_message err)) eqn:Hm; simpl; rewrite Hm;
        [now apply truthy_iff | discriminate]. }
    split; [discriminate |].
    intros _. split.
    + intros d' [= ->] Hne. now apply or_else_present.
    + intros Hd. rewrite (or_else_absent d _ Hd). split.
      * intros Hm. now apply or_else_present.
      * intros Hm. rewrite Hm. reflexivity.
Qed.

(** C8 as stated fails twice over.  On its own [handleError] has no table
    from statuses to messages: two 404 responses without [detail] come out
    with two messages.  And behind the interceptor a 404 that carries a
    [detail] surfaces the interceptor's canned text, not the [detail]. *)
Lemma wrapper_message_counterexample :
  ~ (exists table : Z -> string,
       forall e : Http.HttpErrorResponse,
         Http.detail_of (Http.error e) = None ->
         snd (ApiService.handleError (B := unit) (Http.OfHttp e))
         = Http.OfError (table (Http.status e)))
  /\ Http.detail_of (Http.error Scenarios.notFoundWithDetail) = Some "Image not found"
  /\ Rx.outcome
       (ApiService.get (B := unit) (R := unit)
          (HttpClient.intercepted
             (Scenarios.failsSilently Scenarios.notFoundWithDetail) 3)
          "http://localhost:8000" "/images/a.png" None)
     = Rx.Throws 1100 (Http.OfError "Resource not found.").
Proof.
  split; [| split; reflexivity].
  intros [table Htable].
  pose proof (Htable (Scenarios.notFound "Http failure response for /a: 404 Not Found")
                eq_refl) as Ha.
  pose proof (Htable (Scenarios.notFound "Http failure response for /b: 404 Not Found")
                eq_refl) as Hb.
  simpl in Ha, Hb. rewrite <- Hb in Ha. discriminate.
Qed.

(** ** The retry of the interceptor *)

Lemma logged_request {B R : Type} (t : N) (k : nat) (req : Http.HttpRequest B)
    (r : Rx.Run B R) :
  Rx.outcome (Rx.logged t (Rx.Request k req) r) = Rx.outcome r
  /\ Rx.requests (Rx.logged t (Rx.Request k req) r) = (t, k) :: Rx.requests r
  /\ Rx.notified (Rx.logged t (Rx.Request k req) r) = Rx.notified r.
Proof.
  repeat split.
Qed.

Lemma retry_restarts_after_sent {B R : Type} (req : Http.HttpRequest B) (fuel : nat) :
  forall k soFar t,
    let run := Rx.retry (R := R) HttpErrorInterceptor.retryConfig req
                 (Scenarios.failsAfterSent req) fuel k soFar t in
    Rx.outcome run = Rx.Unfinished (t + N.of_nat fuel * 1050)
    /\ length (Rx.requests run) = fuel
    /\ Rx.notified run = [].
Proof.
  induction fuel as [|fuel IH]; intros k soFar t; cbv zeta.
  - simpl. repeat split. f_equal. lia.
  - destruct (IH (S k) 1%nat (t + 50 + 1000)%N) as (Hout & Hreq & Hnot).
    change (Rx.retry (R := R) HttpErrorInterceptor.retryConfig req
              (Scenarios.failsAfterSent req) (S fuel) k soFar t)
      with (Rx.logged t (Rx.Request k req)
              (Rx.retry (R := R) HttpErrorInterceptor.retryConfig req
                 (Scenarios.failsAfterSent req) fuel (S k) 1 (t + 50 + 1000))).
    destruct (logged_request t k req
                (Rx.retry (R := R) HttpErrorInterceptor.retryConfig req
                   (Scenarios.failsAfterSent req) fuel (S k) 1 (t + 50 + 1000)))
      as (Eout & Ereq & Enot).
    rewrite Eout, Ereq, Enot, Hout, Hnot. simpl length. rewrite Hreq.
    repeat split. f_equal. lia.
Qed.

(** C1, at an input that breaks it: a back end that reports each request as
    sent before it fails.  The [Sent] event resets the counter of [retry]
    ([resetOnSuccess: true]), so every failure is retried: whatever number of
    attempts is allowed, all of them are made, 1050 ms apart, the interceptor
    never gives up and never notifies.  Behind [ApiService] the 116th
    attempt is cut by the 120 s timeout. *)
Theorem retry_never_gives_up_after_sent :
  forall fuel : nat,
    let run := HttpErrorInterceptor.intercept (R := unit) Scenarios.analyzeRequest
                 Scenarios.failsAfterSent fuel in
    Rx.outcome run = Rx.Unfinished (N.of_nat fuel * 1050)
    /\ length (Rx.requests run) = fuel
    /\ Rx.notified run = []
    /\ (let call := AtsService.analyzeResume (R := unit)
                      (HttpClient.intercepted Scenarios.failsAfterSent 200)
                      "http://localhost:8000" Scenarios.atsRequest in
        Rx.outcome call = Rx.Throws 120000 (Http.OfError "Timeout has occurred")
        /\ length (Rx.requests call) = 115
        /\ Rx.notified call = []).
Proof.
  intros fuel run. subst run.
  destruct (retry_restarts_after_sent (R := unit) Scenarios.analyzeRequest fuel
              0%nat 0%nat 0%N) as (Hout & Hreq & Hnot).
  cbv zeta in Hout, Hreq, Hnot.
  assert (Hrun : HttpErrorInterceptor.intercept (R := unit) Scenarios.analyzeRequest
                   Scenarios.failsAfterSent fuel
                 = Rx.retry HttpErrorInterceptor.retryConfig Scenarios.analyzeRequest
                     (Scenarios.failsAfterSent Scenarios.analyzeRequest) fuel 0 0 0).
  { unfold HttpErrorInterceptor.intercept, Rx.catchError.
    rewrite Hout. reflexivity. }
  rewrite Hrun. split; [exact Hout |]. split; [exact Hreq |].
  split; [exact Hnot |].
  vm_compute. repeat split.
Qed.

(** ** A call cut by the timeout *)

Lemma not_before_earlier {B R : Type} (t1 t2 : N) (r : Rx.Run B R) :
  (t1 <= t2)%N -> Rx.not_before t2 r -> Rx.not_before t1 r.
Proof.
  intros Hle [Hlog Hout]. split.
  - eapply Forall_impl; [| exact Hlog]. simpl. intros p Hp. lia.
  - destruct (Rx.outcome r); try exact I; lia.
Qed.

Lemma retry_not_before {B R : Type} (config : Rx.RetryConfig)
    (req : Http.HttpRequest B) (source : nat -> Http.Attempt R) (fuel : nat) :
  forall k soFar t, Rx.not_before t (Rx.retry config req source fuel k soFar t).
Proof.
  induction fuel as [|fuel IH]; intros k soFar t.
  - split; simpl; [constructor | lia].
  - cbn [Rx.retry].
    set (rest := match Http.ending (source k) with
                 | Http.Responds _ => _ | Http.Fails _ => _ | Http.Hangs => _
                 end).
    assert (Hrest : Rx.not_before t rest).
    { subst rest. destruct (Http.ending (source k)) as [r | e |].
      - split; simpl; [constructor | lia].
      - case_if.
        + eapply not_before_earlier; [| apply IH]. lia.
        + split; simpl; [constructor | lia].
      - split; simpl; [constructor | exact I]. }
    destruct Hrest as [Hlog Hout]. split.
    + simpl. constructor; [simpl; lia | exact Hlog].
    + exact Hout.
Qed.

Lemma catchError_not_before {B R : Type}
    (selector : Http.Thrown -> list (Rx.Effect B) * Http.Thrown)
    (t : N) (r : Rx.Run B R) :
  Rx.not_before t r -> Rx.not_before t (Rx.catchError selector r).
Proof.
  intros [Hlog Hout]. unfold Rx.catchError.
  destruct (Rx.outcome r) as [t' v | t' err | | t'] eqn:Ho.
  - split; [exact Hlog | rewrite Ho; exact Hout].
  - destruct (selector err) as [effects err']. split; simpl; [| exact Hout].
    apply Forall_app. split; [exact Hlog |].
    apply Forall_forall. intros p Hp. apply in_map_iff in Hp.
    destruct Hp as [e [<- _]]. exact Hout.
  - split; [exact Hlog | rewrite Ho; exact Hout].
  - split; [exact Hlog | rewrite Ho; exact Hout].
Qed.

Lemma catchError_logged {B R : Type}
    (selector : Http.Thrown -> list (Rx.Effect B) * Http.Thrown)
    (t : N) (e : Rx.Effect B) (r : Rx.Run B R) :
  Rx.catchError selector (Rx.logged t e r) = Rx.logged t e (Rx.catchError selector r).
Proof.
  destruct r as [[t' v | t' err | | t'] l]; unfold Rx.catchError, Rx.logged;
    simpl; try reflexivity.
  destruct (selector err) as [effects err']. reflexivity.
Qed.

Lemma filter_none_before {B : Type} (due : N) (l : list (N * Rx.Effect B)) :
  Forall (fun p => (due <= fst p)%N) l ->
  filter (fun p => (fst p <? due)%N) l = [].
Proof.
  induction 1 as [|p l Hp Hl IH]; simpl; [reflexivity |].
  replace (fst p <? due)%N with false by (symmetry; apply N.ltb_ge; exact Hp).
  exact IH.
Qed.

(** A request sent at 0 and nothing else before [due]: [timeout(due)] keeps
    the request and throws. *)
Lemma timeout_cuts {B R : Type} (due : N) (e : Rx.Effect B) (r : Rx.Run B R) :
  (0 < due)%N -> Rx.not_before due r ->
  Rx.timeout due (Rx.logged 0 e r)
  = {| Rx.outcome := Rx.Throws due Http.TimeoutError; Rx.log := [(0%N, e)] |}.
Proof.
  intros Hdue [Hlog Hout]. unfold Rx.timeout, Rx.logged. cbn [Rx.outcome Rx.log].
  assert (Hfilter : filter (fun p => (fst p <? due)%N) ((0%N, e) :: Rx.log r)
                    = [(0%N, e)]).
  { simpl. apply N.ltb_lt in Hdue. rewrite Hdue.
    now rewrite filter_none_before. }
  rewrite Hfilter.
  destruct (Rx.outcome r) as [t v | t err | | t]; try reflexivity;
    (replace (t <? due)%N with false by (symmetry; apply N.ltb_ge; exact Hout));
    reflexivity.
Qed.

(** The analyze call when the first attempt is still pending at 120 s. *)
Lemma analyze_cut_by_timeout {R : Type}
    (backend : Http.HttpHandler AtsService.ATSRequest R) (apiUrl : string)
    (request : AtsService.ATSRequest) (fuel : nat) :
  let req := {| Http.method := Http.POST;
                Http.url := (apiUrl ++ "/ats/analyze")%string;
                Http.body := Some request;
                Http.headers := ApiService.getHeaders |} in
  Http.ending (backend req 0%nat) = Http.Hangs
  \/ (120000 <= Http.dur (backend req 0%nat))%N ->
  AtsService.analyzeResume (HttpClient.intercepted backend (S fuel)) apiUrl request
  = {| Rx.outcome := Rx.Throws 120000 (Http.OfError "Timeout has occurred");
       Rx.log := [(0%N, Rx.Request 0 req);
                  (120000%N, Rx.ConsoleError "API Error:" "Timeout has occurred")] |}.
Proof.
  intros req Hpending.
  unfold AtsService.analyzeResume, ApiService.post, HttpClient.intercepted,
    HttpErrorInterceptor.intercept.
  fold req. cbn [Rx.retry]. rewrite catchError_logged.
  rewrite timeout_cuts; [reflexivity | reflexivity |].
  apply catchError_not_before.
  destruct (Http.ending (backend req 0%nat)) as [r | e |] eqn:Hend.
  - destruct Hpending as [Hh | Hd]; [discriminate |].
    split; simpl; [constructor | exact Hd].
  - destruct Hpending as [Hh | Hd]; [discriminate |].
    case_if.
    + eapply not_before_earlier; [| apply retry_not_before].
      change (ApiService.timeoutOr None) with 120000%N.
      cbn [HttpErrorInterceptor.retryConfig Rx.delay]. lia.
    + split; simpl; [constructor | exact Hd].
  - split; simpl; [constructor | exact I].
Qed.

(** The analyze call when two attempts fail without an event, the second
    with [e1], and the second failure comes before 120 s. *)
Lemma analyze_fails_twice {R : Type}
    (backend : Http.HttpHandler AtsService.ATSRequest R) (apiUrl : string)
    (request : AtsService.ATSRequest) (fuel : nat) (e0 e1 : Http.HttpErrorResponse) :
  let req := {| Http.method := Http.POST;
                Http.url := (apiUrl ++ "/ats/analyze")%string;
                Http.body := Some request;
                Http.headers := ApiService.getHeaders |} in
  let final := (Http.dur (backend req 0%nat) + 1000 + Http.dur (backend req 1%nat))%N in
  let msg := HttpErrorInterceptor.errorMessage e1 in
  Http.pre (backend req 0%nat) = [] -> Http.ending (backend req 0%nat) = Http.Fails e0 ->
  Http.pre (backend req 1%nat) = [] -> Http.ending (backend req 1%nat) = Http.Fails e1 ->
  (final < 120000)%N ->
  msg <> "" ->
  AtsService.analyzeResume (HttpClient.intercepted backend (S (S fuel))) apiUrl request
  = {| Rx.outcome := Rx.Throws final (Http.OfError msg);
       Rx.log := [(0%N, Rx.Request 0 req);
                  ((Http.dur (backend req 0%nat) + 1000)%N, Rx.Request 1 req);
                  (final, Rx.Notify msg);
                  (final, Rx.ConsoleError "HTTP Error:" msg);
                  (final, Rx.ConsoleError "API Error:" msg)] |}.
Proof.
  intros req final msg Hp0 He0 Hp1 He1 Hfinal Hmsg.
  unfold AtsService.analyzeResume, ApiService.post, HttpClient.intercepted,
    HttpErrorInterceptor.intercept.
  fold req.
  rewrite (retry_once_without_events req (backend req) fuel e0 e1 Hp0 He0 Hp1 He1).
  fold final.
  unfold Rx.catchError at 2. cbn [Rx.outcome Rx.log HttpErrorInterceptor.onError map app].
  fold msg.
  unfold Rx.timeout. cbn [Rx.outcome].
  apply N.ltb_lt in Hfinal.
  change (ApiService.timeoutOr None) with 120000%N. rewrite Hfinal.
  unfold Rx.catchError. cbn [Rx.outcome Rx.log ApiService.handleError
    Http.thrown_error Http.thrown_message Http.detail_of Js.or_else map app].
  apply truthy_iff in Hmsg. rewrite Hmsg. reflexivity.
Qed.

(** C4, as the code has it.  The 120 s timeout of [ApiService.post] sits
    outside the interceptor: when the first attempt of POST /ats/analyze is
    still pending at 120 s the call is cut there, nothing is retried, no
    notification is pushed, and the component shows the timeout error's own
    text, "Timeout has occurred".  The message of the 408 entry,
    "Request timeout. Please try again.", is what the component shows when
    the attempt and its one retry (1000 ms after the first failure) both
    fail without an event, the retry with status 408, before 120 s. *)
Theorem analyze_timeout_not_retried :
  forall (R : Type) (backend : Http.HttpHandler AtsService.ATSRequest R)
         (apiUrl : string) (this : AtsAnalyzerComponent.State R) (fuel : nat),
    AtsAnalyzerComponent.resumeText this <> "" ->
    AtsAnalyzerComponent.jobDescription this <> "" ->
    let req :=
      {| Http.method := Http.POST;
         Http.url := (apiUrl ++ "/ats/analyze")%string;
         Http.body :=
           Some {| AtsService.resume_text := AtsAnalyzerComponent.resumeText this;
                   AtsService.job_description :=
                     AtsAnalyzerComponent.jobDescription this |};
         Http.headers := [("Content-Type", "application/json")] |} in
    let first := backend req 0%nat in
    let second := backend req 1%nat in
    (Http.ending first = Http.Hangs \/ (120000 <= Http.dur first)%N ->
     let done := AtsAnalyzerComponent.analyzeResume
                   (HttpClient.intercepted backend (S fuel)) apiUrl this in
     AtsAnalyzerComponent.error (fst done) = "Timeout has occurred"
     /\ AtsAnalyzerComponent.loading (fst done) = false
     /\ Rx.requests_in (snd done) = [(0%N, 0%nat)]
     /\ Rx.notified_in (snd done) = [])
    /\ (forall e0 e1 : Http.HttpErrorResponse,
          Http.pre first = [] -> Http.ending first = Http.Fails e0 ->
          Http.pre second = [] -> Http.ending second = Http.Fails e1 ->
          Http.status e1 = 408%Z ->
          (forall m, Http.error e1 <> Http.ErrorEvent m) ->
          (Http.dur first + 1000 + Http.dur second < 120000)%N ->
          let done := AtsAnalyzerComponent.analyzeResume
                        (HttpClient.intercepted backend (S (S fuel))) apiUrl this in
          AtsAnalyzerComponent.error (fst done) = "Request timeout. Please try again."
          /\ AtsAnalyzerComponent.loading (fst done) = false
          /\ Rx.requests_in (snd done)
             = [(0%N, 0%nat); ((Http.dur first + 1000)%N, 1%nat)]
          /\ Rx.notified_in (snd done) = ["Request timeout. Please try again."]).
Proof.
  intros R backend apiUrl this fuel Hresume Hjob req first second.
  assert (Hvalid : negb (Js.truthy (AtsAnalyzerComponent.resumeText this))
                   || negb (Js.truthy (AtsAnalyzerComponent.jobDescription this))
                   = false).
  { apply truthy_iff in Hresume. apply truthy_iff in Hjob.
    now rewrite Hresume, Hjob. }
  split.
  - intros Hpending done. subst done.
    unfold AtsAnalyzerComponent.analyzeResume. rewrite Hvalid.
    rewrite (analyze_cut_by_timeout backend apiUrl _ fuel Hpending).
    repeat split.
  - intros e0 e1 Hp0 He0 Hp1 He1 H408 Hserver Hfinal done. subst done.
    assert (Hmsg : HttpErrorInterceptor.errorMessage e1
                   = "Request timeout. Please try again.").
    { unfold HttpErrorInterceptor.errorMessage,
        HttpErrorInterceptor.getServerErrorMessage.
      rewrite H408. destruct (Http.error e1) as [| m | d]; try reflexivity.
      exfalso. now apply (Hserver m). }
    unfold AtsAnalyzerComponent.analyzeResume. rewrite Hvalid.
    rewrite (analyze_fails_twice backend apiUrl _ fuel e0 e1 Hp0 He0 Hp1 He1 Hfinal);
      rewrite Hmsg; [| discriminate].
    repeat split.
Qed.

Lemma analyze_timeout_not_retried_witness :
  AtsAnalyzerComponent.error
    (fst (AtsAnalyzerComponent.analyzeResume
            (HttpClient.intercepted Scenarios.neverAnswers 1)
            "http://localhost:8000" Scenarios.filledForm))
  = "Timeout has occurred".
Proof.
  refine (proj1 (proj1 (analyze_timeout_not_retried unit Scenarios.neverAnswers
                          "http://localhost:8000" Scenarios.filledForm 0 _ _) _)).
  - discriminate.
  - discriminate.
  - left. reflexivity.
Defined.

(** C4 as stated fails when the server never answers: the call times out
    at 120 s with a single request sent (there is no retry), nothing is
    notified, and the component shows "Timeout has occurred", which is not
    the message the status table has for a timeout. *)
Lemma analyze_timeout_counterexample :
  let done := AtsAnalyzerComponent.analyzeResume
                (HttpClient.intercepted Scenarios.neverAnswers 200)
                "http://localhost:8000" Scenarios.filledForm in
  Rx.requests_in (snd done) = [(0%N, 0%nat)]
  /\ length (Rx.requests_in (snd done)) <> 2
  /\ Rx.notified_in (snd done) = []
  /\ AtsAnalyzerComponent.error (fst done) = "Timeout has occurred"
  /\ AtsAnalyzerComponent.error (fst done)
     <> HttpErrorInterceptor.getServerErrorMessage Scenarios.requestTimeout.
Proof.
  vm_compute. repeat split; discriminate.
Qed.

(** * Further properties of the code *)

(** ** The score helpers *)

Lemma ge_finite_true (q : Q) (n : Z) :
  (inject_Z n <= q)%Q -> JsNumber.ge (JsNumber.Finite q) n = true.
Proof.
  intros Hle. simpl. now apply Qle_bool_iff.
Qed.

Lemma ge_finite_false (q : Q) (n : Z) :
  (q < inject_Z n)%Q -> JsNumber.ge (JsNumber.Finite q) n = false.
Proof.
  intros Hlt. simpl. destruct (Qle_bool (inject_Z n) q) eqn:Hb; [| reflexivity].
  apply Qle_bool_iff in Hb. exfalso. now apply (Qlt_not_le _ _ Hlt).
Qed.

(** X2: the colour and the label of a score agree on their bands: green
    goes with "Excellent" (score >= 80), amber with "Good" (60 <= score <
    80), red with "Fair" (40 <= score < 60) and "Poor" (score < 40); a
    score that is not a number is red and "Poor". *)
Theorem score_colour_matches_label :
  forall score : JsNumber.number,
    (AtsAnalyzerScore.getScoreColor score = "#22c55e" <->
     AtsAnalyzerScore.getScoreLabel score = "Excellent - Ready to Apply!")
    /\ (AtsAnalyzerScore.getScoreColor score = "#f59e0b" <->
        AtsAnalyzerScore.getScoreLabel score = "Good - Minor Improvements Needed")
    /\ (AtsAnalyzerScore.getScoreColor score = "#ef4444" <->
        AtsAnalyzerScore.getScoreLabel score = "Fair - Needs Optimization" \/
        AtsAnalyzerScore.getScoreLabel score = "Poor - Significant Changes Required")
    /\ (forall q : Q, score = JsNumber.Finite q ->
          ((inject_Z 80 <= q)%Q ->
           AtsAnalyzerScore.getScoreLabel score = "Excellent - Ready to Apply!")
          /\ ((inject_Z 60 <= q)%Q -> (q < inject_Z 80)%Q ->
              AtsAnalyzerScore.getScoreLabel score = "Good - Minor Improvements Needed")
          /\ ((inject_Z 40 <= q)%Q -> (q < inject_Z 60)%Q ->
              AtsAnalyzerScore.getScoreLabel score = "Fair - Needs Optimization")
          /\ ((q < inject_Z 40)%Q ->
              AtsAnalyzerScore.getScoreLabel score
              = "Poor - Significant Changes Required"))
    /\ (score = JsNumber.NaN ->
        AtsAnalyzerScore.getScoreColor score = "#ef4444"
        /\ AtsAnalyzerScore.getScoreLabel score = "Poor - Significant Changes Required").
Proof.
  intros score.
  unfold AtsAnalyzerScore.getScoreColor, AtsAnalyzerScore.getScoreLabel.
  split; [| split; [| split; [| split]]].
  - destruct (JsNumber.ge score 80), (JsNumber.ge score 60), (JsNumber.ge score 40);
      split; intros H; try reflexivity; discriminate.
  - destruct (JsNumber.ge score 80), (JsNumber.ge score 60), (JsNumber.ge score 40);
      split; intros H; try reflexivity; discriminate.
  - destruct (JsNumber.ge score 80), (JsNumber.ge score 60), (JsNumber.ge score 40);
      split; intros H; try reflexivity; try discriminate;
      try (destruct H; discriminate); tauto.
  - intros q ->. repeat split.
    + intros H80. now rewrite (ge_finite_true q 80 H80).
    + intros H60 H80.
      now rewrite (ge_finite_false q 80 H80), (ge_finite_true q 60 H60).
    + intros H40 H60.
      assert (H80 : (q < inject_Z 80)%Q).
      { eapply Qlt_trans; [exact H60 | reflexivity]. }
      now rewrite (ge_finite_false q 80 H80), (ge_finite_false q 60 H60),
        (ge_finite_true q 40 H40).
    + intros H40.
      assert (H60 : (q < inject_Z 60)%Q).
      { eapply Qlt_trans; [exact H40 | reflexivity]. }
      assert (H80 : (q < inject_Z 80)%Q).
      { eapply Qlt_trans; [exact H60 | reflexivity]. }
      now rewrite (ge_finite_false q 80 H80), (ge_finite_false q 60 H60),
        (ge_finite_false q 40 H40).
  - intros ->. split; reflexivity.
Qed.

(** ** Image URLs, again *)

Lemma getImageUrl_fixed (url : string) :
  String.prefix "http://" url = true \/ String.prefix "https://" url = true ->
  ImageService.getImageUrl url = url.
Proof.
  intros Hp. unfold ImageService.getImageUrl.
  assert (Ht : Js.truthy url = true).
  { destruct url; [destruct Hp; discriminate | reflexivity]. }
  apply orb_true_iff in Hp. now rewrite Ht, Hp.
Qed.

(** X3: whatever its argument, [getImageUrl] returns a string that starts
    with "http://" or "https://", and applying it to its own result changes
    nothing. *)
Theorem getImageUrl_absolute_idempotent :
  forall imageSource : string,
    (String.prefix "http://" (ImageService.getImageUrl imageSource) = true \/
     String.prefix "https://" (ImageService.getImageUrl imageSource) = true)
    /\ ImageService.getImageUrl (ImageService.getImageUrl imageSource)
       = ImageService.getImageUrl imageSource.
Proof.
  intros s.
  assert (Habs : String.prefix "http://" (ImageService.getImageUrl s) = true \/
                 String.prefix "https://" (ImageService.getImageUrl s) = true).
  { unfold ImageService.getImageUrl.
    destruct (Js.truthy s && (String.prefix "http://" s || String.prefix "https://" s))
      eqn:Hc.
    - apply andb_true_iff in Hc. destruct Hc as [_ Hp].
      now apply orb_true_iff in Hp.
    - left. reflexivity. }
  split; [exact Habs | now apply getImageUrl_fixed].
Qed.

(** ** Showing and dismissing notifications *)

Lemma filter_comm {A : Type} (f g : A -> bool) (l : list A) :
  filter f (filter g l) = filter g (filter f l).
Proof.
  induction l as [|x l IH]; simpl; [reflexivity |].
  destruct (f x) eqn:Hf, (g x) eqn:Hg; simpl; rewrite ?Hf, ?Hg, IH; reflexivity.
Qed.

(** X4: dismissing a notification right after it was shown leaves the queue
    that dismissing the same identifier before would have left; when no
    notification already carried that identifier, the queue is back to what
    it was before [show]. *)
Theorem show_then_remove :
  forall (ty : NotificationService.NotificationType) (msg : string) (dur now : N)
         (fresh : string) (st : NotificationService.State),
    NotificationService.notifications
      (NotificationService.remove fresh
         (NotificationService.show ty msg dur now fresh st))
    = NotificationService.notifications (NotificationService.remove fresh st)
    /\ ((forall n, In n (NotificationService.notifications st) ->
                   NotificationService.id n <> fresh) ->
        NotificationService.notifications
          (NotificationService.remove fresh
             (NotificationService.show ty msg dur now fresh st))
        = NotificationService.notifications st).
Proof.
  intros ty msg dur now fresh st.
  assert (Hgen : NotificationService.notifications
                   (NotificationService.remove fresh
                      (NotificationService.show ty msg dur now fresh st))
                 = NotificationService.notifications
                     (NotificationService.remove fresh st)).
  { unfold NotificationService.remove, NotificationService.show. simpl.
    rewrite filter_app. simpl. rewrite String.eqb_refl. simpl. apply app_nil_r. }
  split; [exact Hgen |].
  intros Hfresh. rewrite Hgen. simpl. apply filter_all_kept.
  intros n Hn. apply negb_true_iff, String.eqb_neq, Hfresh, Hn.
Qed.

(** X5: [remove] drops exactly the notifications that carry the identifier
    and keeps the others; two removals commute; and removing another
    identifier commutes with [show]. *)
Theorem remove_keeps_the_others :
  forall (a b : string) (st : NotificationService.State),
    (forall n,
       In n (NotificationService.notifications (NotificationService.remove a st)) <->
       In n (NotificationService.notifications st) /\ NotificationService.id n <> a)
    /\ NotificationService.remove a (NotificationService.remove b st)
       = NotificationService.remove b (NotificationService.remove a st)
    /\ (forall ty msg dur now,
          a <> b ->
          NotificationService.remove a (NotificationService.show ty msg dur now b st)
          = NotificationService.show ty msg dur now b (NotificationService.remove a st)).
Proof.
  intros a b [ns ts]. unfold NotificationService.remove, NotificationService.show.
  simpl. split; [| split].
  - intros n. rewrite filter_In, negb_true_iff, String.eqb_neq. tauto.
  - f_equal. apply filter_comm.
  - intros ty msg dur now Hab. f_equal.
    rewrite filter_app. simpl.
    replace (b =? a)%string with false
      by (symmetry; apply String.eqb_neq; congruence).
    reflexivity.
Qed.

(** X6: [error] schedules the removal of its notification 7000 ms after the
    call, [success], [warning] and [info] 5000 ms after; when that timer
    fires no notification with the identifier is left while those with
    another identifier all stay; a [show] with duration 0 schedules
    nothing, so its notification stays until it is dismissed by hand. *)
Theorem notifications_dismiss_themselves :
  forall (msg : string) (now : N) (fresh : string) (st : NotificationService.State),
    In ((now + 7000)%N, fresh)
       (NotificationService.timers (NotificationService.error msg now fresh st))
    /\ In ((now + 5000)%N, fresh)
          (NotificationService.timers (NotificationService.success msg now fresh st))
    /\ In ((now + 5000)%N, fresh)
          (NotificationService.timers (NotificationService.warning msg now fresh st))
    /\ In ((now + 5000)%N, fresh)
          (NotificationService.timers (NotificationService.info msg now fresh st))
    /\ (forall ty dur,
          let shown := NotificationService.show ty msg dur now fresh st in
          let fired := NotificationTimers.fire ((now + dur)%N, fresh) shown in
          (forall n, In n (NotificationService.notifications fired) ->
                     NotificationService.id n <> fresh)
          /\ (forall n, In n (NotificationService.notifications st) ->
                        NotificationService.id n <> fresh ->
                        In n (NotificationService.notifications fired)))
    /\ (forall ty,
          NotificationService.timers (NotificationService.show ty msg 0 now fresh st)
          = NotificationService.timers st).
Proof.
  intros msg now fresh st.
  unfold NotificationService.error, NotificationService.success,
    NotificationService.warning, NotificationService.info, NotificationService.show.
  simpl.
  split; [apply in_or_app; right; now left |].
  split; [apply in_or_app; right; now left |].
  split; [apply in_or_app; right; now left |].
  split; [apply in_or_app; right; now left |].
  split; [| reflexivity].
  intros ty dur. cbv zeta. unfold NotificationTimers.fire, NotificationService.remove.
  simpl. split.
  - intros n Hn. apply filter_In in Hn. destruct Hn as [_ Hn].
    now apply negb_true_iff, String.eqb_neq in Hn.
  - intros n Hn Hid. apply filter_In. split.
    + apply in_or_app. now left.
    + now apply negb_true_iff, String.eqb_neq.
Qed.

(** ** Parsing the skills *)

Lemma is_white_iff (c : ascii) :
  Js.is_white c = true <-> In (nat_of_ascii c) [9; 10; 11; 12; 13; 32; 160].
Proof.
  unfold Js.is_white. generalize (nat_of_ascii c) as n. intros n.
  rewrite !orb_true_iff, andb_true_iff, !Nat.leb_le, !Nat.eqb_eq. simpl. lia.
Qed.


Lemma dropWhite_head (l : list ascii) :
  forall c rest, JsString.dropWhite l = c :: rest -> Js.is_white c = false.
Proof.
  induction l as [|x l IH]; intros c rest; simpl; [discriminate |].
  destruct (Js.is_white x) eqn:Hx; [apply IH |].
  intros [= <- _]. exact Hx.
Qed.

Lemma dropWhite_suffix (l : list ascii) :
  exists white, l = white ++ JsString.dropWhite l.
Proof.
  induction l as [|x l [white IH]]; simpl; [now exists [] |].
  destruct (Js.is_white x).
  - exists (x :: white). simpl. now rewrite <- IH.
  - now exists [].
Qed.

Lemma dropWhite_In (l : list ascii) (c : ascii) :
  In c (JsString.dropWhite l) -> In c l.
Proof.
  destruct (dropWhite_suffix l) as [white Hl]. intros Hc.
  rewrite Hl. apply in_or_app. now right.
Qed.

Lemma trim_chars (s : string) :
  list_ascii_of_string (JsString.trim s)
  = rev (JsString.dropWhite (rev (JsString.dropWhite (list_ascii_of_string s)))).
Proof.
  unfold JsString.trim. apply list_ascii_of_string_of_list_ascii.
Qed.

Lemma trim_trimmed (s : string) : JsString.trimmed (JsString.trim s).
Proof.
  unfold JsString.trimmed. rewrite trim_chars.
  set (l1 := JsString.dropWhite (list_ascii_of_string s)).
  split.
  - intros c rest Hc.
    destruct (dropWhite_suffix (rev l1)) as [white Hw].
    apply (f_equal (@rev ascii)) in Hw.
    rewrite rev_involutive, rev_app_distr, Hc in Hw.
    apply (dropWhite_head (list_ascii_of_string s) c (rest ++ rev white)).
    exact Hw.
  - intros front c Hc.
    apply (f_equal (@rev ascii)) in Hc.
    rewrite rev_involutive, rev_app_distr in Hc. simpl in Hc.
    now apply (dropWhite_head (rev l1) c (rev front)).
Qed.

Lemma trim_In (s : string) (c : ascii) :
  In c (list_ascii_of_string (JsString.trim s)) -> In c (list_ascii_of_string s).
Proof.
  rewrite trim_chars. intros Hc.
  apply in_rev, dropWhite_In in Hc. apply in_rev in Hc.
  now apply dropWhite_In.
Qed.

Lemma split_nonempty (sep : ascii) (s : string) : JsString.split sep s <> [].
Proof.
  destruct s as [|c s]; simpl; [discriminate |].
  destruct (Ascii.eqb c sep); [discriminate |].
  destruct (JsString.split sep s); discriminate.
Qed.

Lemma split_free (sep : ascii) (s : string) :
  Forall (JsString.free_of sep) (JsString.split sep s).
Proof.
  unfold JsString.free_of.
  induction s as [|c s IH]; simpl.
  - constructor; [intros [] | constructor].
  - destruct (Ascii.eqb_spec c sep) as [-> | Hne].
    + constructor; [intros [] | exact IH].
    + destruct (JsString.split sep s) as [|piece pieces]; simpl.
      * constructor; [| constructor]. simpl. intros [E | []]. congruence.
      * inversion IH as [|? ? Hpiece Hpieces]; subst.
        constructor; [| exact Hpieces].
        simpl. intros [E | Hin]; [congruence | now apply Hpiece].
Qed.

Lemma split_append (sep : ascii) (a b : string) :
  JsString.split sep (a ++ String sep b)%string
  = JsString.split sep a ++ JsString.split sep b.
Proof.
  induction a as [|c a IH]; simpl.
  - now rewrite Ascii.eqb_refl.
  - destruct (Ascii.eqb c sep); [now rewrite IH |].
    rewrite IH. destruct (JsString.split sep a) as [|piece pieces] eqn:Ha.
    + exfalso. now apply (split_nonempty sep a).
    + reflexivity.
Qed.

Lemma truthy_is_positive_length (s : string) :
  Js.truthy s = (0 <? String.length s)%nat.
Proof.
  destruct s; reflexivity.
Qed.

Lemma trim_leading_white (c : ascii) (s : string) :
  Js.is_white c = true -> JsString.trim (String c s) = JsString.trim s.
Proof.
  intros Hc. unfold JsString.trim. simpl. now rewrite Hc.
Qed.

Lemma parseSkills_leading_white (c : ascii) (s : string) :
  Js.is_white c = true ->
  ResumeSubmit.parseSkills (String c s) = ResumeSubmit.parseSkills s.
Proof.
  intros Hc. unfold ResumeSubmit.parseSkills.
  assert (Hsep : Ascii.eqb c "," = false).
  { destruct (Ascii.eqb_spec c ","); [subst; discriminate | reflexivity]. }
  simpl. rewrite Hsep.
  destruct (JsString.split "," s) as [|piece pieces] eqn:Hs.
  - exfalso. now apply (split_nonempty "," s).
  - simpl. now rewrite (trim_leading_white c piece Hc).
Qed.

Lemma parseSkills_append (a b : string) :
  ResumeSubmit.parseSkills (a ++ String "," b)%string
  = ResumeSubmit.parseSkills a ++ ResumeSubmit.parseSkills b.
Proof.
  unfold ResumeSubmit.parseSkills.
  now rewrite split_append, map_app, filter_app.
Qed.

Example parseSkills_no_break_space :
  ResumeSubmit.parseSkills (String "a" (String "," (String (ascii_of_nat 160) "")))
  = ["a"].
Proof.
  reflexivity.
Qed.

(** X7: every skill the components parse out of the skills input is
    non-empty, neither starts nor ends with white space (the characters
    [trim()] strips: tab, line feed, vertical tab, form feed, carriage
    return, space, no-break space) and contains no comma; and the parser
    of [ResumeFormComponent.onGenerate] returns the same list as the one of
    [ResumeGeneratorComponent.generateResume]. *)
Theorem parsed_skills_are_clean :
  forall (resumeData : ResumeModel.ResumeRequest) (skillsInput : string),
    Forall (fun skill => skill <> ""
                         /\ JsString.trimmed skill
                         /\ JsString.free_of "," skill)
           (ResumeSubmit.parseSkills skillsInput)
    /\ ResumeSubmit.parseSkillsForm skillsInput = ResumeSubmit.parseSkills skillsInput
    /\ ResumeModel.skills (fst (ResumeSubmit.onGenerate resumeData skillsInput))
       = ResumeSubmit.parseSkills skillsInput
    /\ (forall c, Js.is_white c = true <->
                  In (nat_of_ascii c) [9; 10; 11; 12; 13; 32; 160]).
Proof.
  intros resumeData input.
  assert (Hsame : ResumeSubmit.parseSkillsForm input = ResumeSubmit.parseSkills input).
  { unfold ResumeSubmit.parseSkillsForm, ResumeSubmit.parseSkills.
    apply filter_ext. intros s. symmetry. apply truthy_is_positive_length. }
  split; [| split; [exact Hsame
                   | split; [simpl; exact Hsame | intros c; apply is_white_iff]]].
  apply Forall_forall. intros skill Hin.
  unfold ResumeSubmit.parseSkills in Hin.
  apply filter_In in Hin. destruct Hin as [Hin Htruthy].
  apply in_map_iff in Hin. destruct Hin as [piece [<- Hpiece]].
  split; [now apply truthy_iff |]. split; [apply trim_trimmed |].
  pose proof (split_free "," input) as Hfree.
  rewrite Forall_forall in Hfree. specialize (Hfree piece Hpiece).
  unfold JsString.free_of in *. intros Hc. apply Hfree. now apply trim_In.
Qed.

Lemma parseSkills_of_separators (a : string) :
  Forall (fun c => Js.is_white c = true \/ c = ","%char) (list_ascii_of_string a) ->
  ResumeSubmit.parseSkills a = [].
Proof.
  induction a as [|c a IH]; intros Hall; [reflexivity |].
  simpl in Hall. inversion Hall as [|? ? Hc Hrest]; subst.
  destruct Hc as [Hwhite | ->].
  - rewrite (parseSkills_leading_white c a Hwhite). now apply IH.
  - change (String "," a) with ("" ++ String "," a)%string.
    rewrite parseSkills_append. simpl. now apply IH.
Qed.

(** X8: the parser works piece by piece: the skills of two inputs joined by
    a comma are the skills of the first followed by the skills of the
    second; white space in front is ignored; and an input made of white
    space and commas only (the empty one included) has no skill at all.
    White space is what [trim()] strips: tab, line feed, vertical tab, form
    feed, carriage return, space and no-break space. *)
Theorem parsed_skills_compose :
  forall a b : string,
    ResumeSubmit.parseSkills (a ++ String "," b)%string
    = ResumeSubmit.parseSkills a ++ ResumeSubmit.parseSkills b
    /\ (forall c, Js.is_white c = true ->
                  ResumeSubmit.parseSkills (String c a) = ResumeSubmit.parseSkills a)
    /\ (Forall (fun c => Js.is_white c = true \/ c = ","%char)
               (list_ascii_of_string a) ->
        ResumeSubmit.parseSkills a = [])
    /\ (forall c, Js.is_white c = true <->
                  In (nat_of_ascii c) [9; 10; 11; 12; 13; 32; 160]).
Proof.
  intros a b. split; [apply parseSkills_append |].
  split; [intros c Hc; now apply parseSkills_leading_white |].
  split; [apply parseSkills_of_separators | intros c; apply is_white_iff].
Qed.

(** ** Submitting the resume form *)

Lemma and_then_truthy (a b : string) :
  Js.truthy (JsString.and_then a b) = Js.truthy a && Js.truthy b.
Proof.
  unfold JsString.and_then. destruct (Js.truthy a) eqn:Ha; simpl; [reflexivity | exact Ha].
Qed.

Lemma isFormValid_iff (d : ResumeModel.ResumeRequest) (skillsInput : string) :
  ResumeSubmit.isFormValid d skillsInput = true <->
  ResumeModel.name d <> "" /\ ResumeModel.email d <> "" /\
  ResumeModel.phone d <> "" /\ ResumeModel.target_role d <> "" /\
  skillsInput <> "" /\ ResumeModel.job_description d <> "".
Proof.
  unfold ResumeSubmit.isFormValid. rewrite !and_then_truthy, !andb_true_iff,
    !truthy_iff. tauto.
Qed.

(** X9: [generateResume] sends nothing unless the name, the e-mail, the
    phone, the target role, the skills input and the job description are
    all non-empty: otherwise it sets "Please fill all required fields" and
    leaves the data alone.  With the six fields filled the POST to
    /resume/generate goes out at once, with the resume data whose skills
    are the parsed skills input; those skills stay in the component
    whatever becomes of the call.  The check looks at the skills input, not
    at the parsed skills: an input of commas and white space passes it and
    sends an empty skills list. *)
Theorem generateResume_validates_first :
  forall (R : Type) (http : HttpClient.Client ResumeModel.ResumeRequest R)
         (apiUrl : string) (this : ResumeSubmit.State R),
    let d := ResumeSubmit.resumeData this in
    let filled :=
      ResumeModel.name d <> "" /\ ResumeModel.email d <> "" /\
      ResumeModel.phone d <> "" /\ ResumeModel.target_role d <> "" /\
      ResumeSubmit.skillsInput this <> "" /\ ResumeModel.job_description d <> "" in
    let parsed :=
      ResumeSubmit.with_skills d
        (ResumeSubmit.parseSkills (ResumeSubmit.skillsInput this)) in
    (~ filled ->
     ResumeSubmit.generateResume http apiUrl this
     = ({| ResumeSubmit.resumeData := d;
           ResumeSubmit.skillsInput := ResumeSubmit.skillsInput this;
           ResumeSubmit.loading := ResumeSubmit.loading this;
           ResumeSubmit.error := "Please fill all required fields";
           ResumeSubmit.result := ResumeSubmit.result this |}, []))
    /\ (forall t k req,
          In (t, Rx.Request k req) (snd (ResumeSubmit.generateResume http apiUrl this)) ->
          filled)
    /\ (filled ->
        ResumeSubmit.resumeData (fst (ResumeSubmit.generateResume http apiUrl this))
        = parsed
        /\ (Forall (fun c => Js.is_white c = true \/ c = ","%char)
                   (list_ascii_of_string (ResumeSubmit.skillsInput this)) ->
            ResumeModel.skills parsed = [])
        /\ forall (backend : Http.HttpHandler ResumeModel.ResumeRequest R) (fuel : nat),
             let sent :=
               (0%N, Rx.Request 0
                       {| Http.method := Http.POST;
                          Http.url := (apiUrl ++ "/resume/generate")%string;
                          Http.body := Some parsed;
                          Http.headers := [("Content-Type", "application/json")] |}) in
             In sent (snd (ResumeSubmit.generateResume
                             (HttpClient.intercepted backend (S fuel)) apiUrl this))
             /\ In sent (snd (ResumeSubmit.generateResume
                                (HttpClient.bare backend) apiUrl this))).
Proof.
  intros R http apiUrl this d filled parsed.
  pose proof (isFormValid_iff d (ResumeSubmit.skillsInput this)) as Hvalid.
  fold filled in Hvalid.
  unfold ResumeSubmit.generateResume. fold d.
  destruct (ResumeSubmit.isFormValid d (ResumeSubmit.skillsInput this)) eqn:Hv; simpl negb;
    cbv iota.
  - assert (Hfilled : filled) by now apply Hvalid.
    split; [intros Hnot; contradiction |].
    split; [intros; exact Hfilled |].
    intros _. fold parsed. split; [| split].
    + destruct (Rx.outcome (ResumeService.generateResume http apiUrl parsed));
        reflexivity.
    + intros Hall. subst parsed. simpl.
      now apply parseSkills_of_separators.
    + intros backend fuel. cbv zeta. simpl snd.
      unfold ResumeService.generateResume, ApiService.post. split.
      * apply catchError_keeps, timeout_keeps_early; [reflexivity |].
        apply intercepted_sends_first.
      * apply catchError_keeps, timeout_keeps_early; [reflexivity |].
        unfold HttpClient.bare. simpl. now left.
  - assert (Hnot : ~ filled).
    { intros Hfilled. apply Hvalid in Hfilled. discriminate. }
    split; [reflexivity |].
    split; [simpl; intros t k req [] |].
    intros Hfilled. contradiction.
Qed.

(** ** What the resume form emits *)

(** X10: each of the six methods of [ResumeFormComponent] that add or
    remove an entry ([addExperience], [removeExperience],
    [addResponsibility], [removeResponsibility], [addEducation],
    [removeEducation]) emits at most one [dataChange] event, which carries
    the data as the call left them; when such a call emits nothing (a
    refused removal, a [TypeError]) it has changed nothing.  ([onGenerate]
    is not among them: it replaces the skills without a [dataChange].) *)
Theorem form_emits_every_change :
  forall (c : ResumeModel.Call) (d : ResumeModel.ResumeRequest),
    let after := fst (ResumeFormEvents.perform c d) in
    let emitted := snd (ResumeFormEvents.perform c d) in
    after = ResumeFormComponent.call c d
    /\ (emitted = [] \/ emitted = [after])
    /\ (emitted = [] -> after = d)
    /\ (after <> d -> emitted = [after]).
Proof.
  intros c d after emitted.
  assert (Hcases : after = ResumeFormComponent.call c d
                   /\ ((emitted = [] /\ after = d) \/ emitted = [after])).
  { subst after emitted.
    destruct c as [| index | expIndex | expIndex respIndex | | index]; simpl.
    - split; [reflexivity | right; reflexivity].
    - unfold ResumeFormComponent.removeExperience.
      destruct (1 <? _)%nat; simpl; split; auto.
    - unfold ResumeFormComponent.addResponsibility.
      destruct (Js.index _ _); simpl; split; auto.
    - unfold ResumeFormComponent.removeResponsibility.
      destruct (Js.index _ _) as [e|]; simpl; [| split; auto].
      destruct (1 <? _)%nat; simpl; split; auto.
    - split; [reflexivity | right; reflexivity].
    - unfold ResumeFormComponent.removeEducation.
      destruct (1 <? _)%nat; simpl; split; auto. }
  destruct Hcases as [Hcall [[Hnone Hsame] | Hone]].
  - split; [exact Hcall |]. split; [now left |].
    split; [intros _; exact Hsame | intros Hne; contradiction].
  - split; [exact Hcall |]. split; [now right |].
    split; [intros Hnone; rewrite Hnone in Hone; discriminate | intros _; exact Hone].
Qed.

(** ** Removing by index *)

Lemma splice1_in_range {A : Type} (start : Z) (arr : list A) :
  (0 <= start < Z.of_nat (length arr))%Z ->
  Js.splice1 start arr
  = firstn (Z.to_nat start) arr ++ skipn (S (Z.to_nat start)) arr.
Proof.
  intros Hr. unfold Js.splice1.
  replace (start <? 0)%Z with false by (symmetry; apply Z.ltb_ge; lia).
  now rewrite Z.min_l by lia.
Qed.

Lemma splice1_beyond {A : Type} (start : Z) (arr : list A) :
  (Z.of_nat (length arr) <= start)%Z -> Js.splice1 start arr = arr.
Proof.
  intros Hr. unfold Js.splice1.
  replace (start <? 0)%Z with false by (symmetry; apply Z.ltb_ge; lia).
  rewrite Z.min_r by lia. rewrite Nat2Z.id.
  rewrite firstn_all, skipn_all2 by lia. apply app_nil_r.
Qed.

Lemma splice1_from_end {A : Type} (start : Z) (arr : list A) :
  (- Z.of_nat (length arr) <= start < 0)%Z ->
  Js.splice1 start arr = Js.splice1 (Z.of_nat (length arr) + start) arr.
Proof.
  intros Hr. unfold Js.splice1.
  replace (start <? 0)%Z with true by (symmetry; apply Z.ltb_lt; lia).
  replace (Z.of_nat (length arr) + start <? 0)%Z with false
    by (symmetry; apply Z.ltb_ge; lia).
  rewrite Z.max_l by lia. now rewrite Z.min_l by lia.
Qed.

Lemma splice1_clamped {A : Type} (start : Z) (arr : list A) :
  (start <= - Z.of_nat (length arr))%Z -> arr <> [] ->
  Js.splice1 start arr = tl arr.
Proof.
  intros Hr Hne. unfold Js.splice1.
  replace (start <? 0)%Z with true
    by (symmetry; apply Z.ltb_lt; destruct arr; [congruence | simpl in *; lia]).
  rewrite Z.max_r by lia. simpl. destruct arr; [congruence | reflexivity].
Qed.

Lemma splice1_shorter {A : Type} (start : Z) (arr : list A) :
  (start < Z.of_nat (length arr))%Z -> arr <> [] ->
  length (Js.splice1 start arr) = length arr - 1.
Proof.
  intros Hr Hne.
  assert (Hlen : 0 < length arr) by (destruct arr; [congruence | simpl; lia]).
  destruct (Z_lt_le_dec start 0) as [Hneg | Hpos].
  - destruct (Z_le_gt_dec start (- Z.of_nat (length arr))) as [Hlow | Hhigh].
    + rewrite splice1_clamped by assumption. destruct arr; simpl; lia.
    + rewrite splice1_from_end by lia. rewrite splice1_in_range by lia.
      rewrite length_app, length_firstn, length_skipn. lia.
  - rewrite splice1_in_range by lia.
    rewrite length_app, length_firstn, length_skipn. lia.
Qed.

Lemma splice1_nth {A : Type} (start : Z) (arr : list A) (j : nat) :
  (0 <= start < Z.of_nat (length arr))%Z ->
  nth_error (Js.splice1 start arr) j
  = if (j <? Z.to_nat start)%nat then nth_error arr j else nth_error arr (S j).
Proof.
  intros Hr. rewrite splice1_in_range by assumption.
  rewrite nth_error_app, length_firstn, Nat.min_l by lia.
  destruct (j <? Z.to_nat start)%nat eqn:Hj.
  - rewrite nth_error_firstn, Hj. reflexivity.
  - apply Nat.ltb_ge in Hj. rewrite nth_error_skipn. f_equal. lia.
Qed.

(** X11: with more than one entry, [removeExperience(index)] removes the
    entry at [index] and keeps the others in their order when the index is
    in range; a negative index counts from the end (-1 removes the last
    entry, an index below minus the length removes the first); an index at
    or beyond the length removes nothing.  [removeEducation] has the same
    lengths. *)
Theorem removeExperience_by_index :
  forall (index : Z) (d : ResumeModel.ResumeRequest),
    1 < length (ResumeModel.experience d) ->
    let before := ResumeModel.experience d in
    let after := ResumeModel.experience (ResumeGeneratorComponent.removeExperience index d) in
    ((0 <= index < Z.of_nat (length before))%Z ->
     forall j, nth_error after j
               = if (j <? Z.to_nat index)%nat then nth_error before j
                 else nth_error before (S j))
    /\ ((index < Z.of_nat (length before))%Z -> length after = length before - 1)
    /\ (index = (-1)%Z -> after = removelast before)
    /\ ((index <= - Z.of_nat (length before))%Z -> after = tl before)
    /\ ((Z.of_nat (length before) <= index)%Z -> after = before)
    /\ (1 < length (ResumeModel.education d) ->
        ((index < Z.of_nat (length (ResumeModel.education d)))%Z ->
         length (ResumeModel.education (ResumeGeneratorComponent.removeEducation index d))
         = length (ResumeModel.education d) - 1)
        /\ ((Z.of_nat (length (ResumeModel.education d)) <= index)%Z ->
            ResumeModel.education (ResumeGeneratorComponent.removeEducation index d)
            = ResumeModel.education d)).
Proof.
  intros index d Hmany before after.
  assert (Hafter : after = Js.splice1 index before).
  { subst after before. unfold ResumeGeneratorComponent.removeExperience.
    apply Nat.ltb_lt in Hmany. rewrite Hmany. reflexivity. }
  assert (Hne : before <> []).
  { subst before. intros E. rewrite E in Hmany. simpl in Hmany. lia. }
  rewrite Hafter.
  split; [intros Hr j; now apply splice1_nth |].
  split; [intros Hr; now apply splice1_shorter |].
  split.
  { intros ->. rewrite splice1_from_end by (fold before in Hmany; lia).
    rewrite splice1_in_range by (fold before in Hmany; lia).
    replace (Z.to_nat (Z.of_nat (length before) + -1)) with (pred (length before))
      by lia.
    replace (S (pred (length before))) with (length before)
      by (fold before in Hmany; lia).
    rewrite skipn_all, app_nil_r. symmetry. apply removelast_firstn_len. }
  split; [intros Hr; now apply splice1_clamped |].
  split; [intros Hr; now apply splice1_beyond |].
  intros Hedu. unfold ResumeGeneratorComponent.removeEducation.
  pose proof Hedu as Hb. apply Nat.ltb_lt in Hb. rewrite Hb. simpl.
  split.
  - intros Hr. apply splice1_shorter; [exact Hr |].
    intros E. rewrite E in Hedu. simpl in Hedu. lia.
  - intros Hr. now apply splice1_beyond.
Qed.

Lemma removeExperience_by_index_witness :
  ResumeModel.experience
    (ResumeGeneratorComponent.removeExperience (-1)
       (ResumeGeneratorComponent.addExperience ResumeGeneratorComponent.resumeData))
  = removelast
      (ResumeModel.experience
         (ResumeGeneratorComponent.addExperience ResumeGeneratorComponent.resumeData)).
Proof.
  refine (proj1 (proj2 (proj2 (removeExperience_by_index (-1)
            (ResumeGeneratorComponent.addExperience ResumeGeneratorComponent.resumeData)
            _))) eq_refl).
  simpl. lia.
Defined.

(** ** Responsibilities of one experience entry *)

Lemma set_nth_length {A : Type} (arr : list A) (i : nat) (x : A) :
  length (Js.set_nth arr i x) = length arr.
Proof.
  revert i. induction arr as [|hd tl IH]; intros [|i]; simpl; auto.
Qed.

Lemma set_nth_same {A : Type} (arr : list A) (i : nat) (x : A) :
  i < length arr -> nth_error (Js.set_nth arr i x) i = Some x.
Proof.
  revert i. induction arr as [|hd tl IH]; intros [|i]; simpl; intros Hi;
    try lia; [reflexivity | apply IH; lia].
Qed.

Lemma set_nth_other {A : Type} (arr : list A) (i j : nat) (x : A) :
  j <> i -> nth_error (Js.set_nth arr i x) j = nth_error arr j.
Proof.
  revert i j. induction arr as [|hd tl IH]; intros [|i] [|j] Hne; simpl;
    try reflexivity; try congruence.
  apply IH. congruence.
Qed.

Lemma index_in_range {A : Type} (arr : list A) (i : Z) (x : A) :
  Js.index arr i = Some x ->
  (0 <= i)%Z /\ Z.to_nat i < length arr /\ nth_error arr (Z.to_nat i) = Some x.
Proof.
  unfold Js.index. destruct (i <? 0)%Z eqn:Hneg; [discriminate |].
  apply Z.ltb_ge in Hneg. intros Hx. split; [exact Hneg |].
  split; [| exact Hx]. apply nth_error_Some. congruence.
Qed.

(** X12: [addResponsibility(expIndex)] and [removeResponsibility(expIndex,
    respIndex)] touch one experience entry only: the number of experience
    entries, every other entry and the education list stay as they were;
    [addResponsibility] appends one empty responsibility to the entry.
    With [expIndex] out of range (negative, or at or beyond the length)
    both throw, and the data stay as they were. *)
Theorem responsibilities_touch_one_entry :
  forall (expIndex respIndex : Z) (d : ResumeModel.ResumeRequest),
    (forall e, Js.index (ResumeModel.experience d) expIndex = Some e ->
       exists added removed,
         ResumeGeneratorComponent.addResponsibility expIndex d = Some added
         /\ ResumeGeneratorComponent.removeResponsibility expIndex respIndex d
            = Some removed
         /\ nth_error (ResumeModel.experience added) (Z.to_nat expIndex)
            = Some (ResumeModel.with_responsibilities e
                      (ResumeModel.responsibilities e ++ [""]))
         /\ (forall after, after = added \/ after = removed ->
               length (ResumeModel.experience after)
               = length (ResumeModel.experience d)
               /\ ResumeModel.education after = ResumeModel.education d
               /\ forall j, j <> Z.to_nat expIndex ->
                    nth_error (ResumeModel.experience after) j
                    = nth_error (ResumeModel.experience d) j))
    /\ ((expIndex < 0)%Z \/ (Z.of_nat (length (ResumeModel.experience d)) <= expIndex)%Z ->
        ResumeGeneratorComponent.addResponsibility expIndex d = None
        /\ ResumeGeneratorComponent.removeResponsibility expIndex respIndex d = None
        /\ ResumeGeneratorComponent.call (ResumeModel.AddResponsibility expIndex) d = d
        /\ ResumeGeneratorComponent.call
             (ResumeModel.RemoveResponsibility expIndex respIndex) d = d).
Proof.
  intros expIndex respIndex d. split.
  - intros e He. destruct (index_in_range _ _ _ He) as (Hpos & Hlt & Hnth).
    unfold ResumeGeneratorComponent.addResponsibility,
      ResumeGeneratorComponent.removeResponsibility. rewrite He.
    destruct (1 <? length (ResumeModel.responsibilities e))%nat;
      (eexists; eexists; split; [reflexivity |]; split; [reflexivity |];
       split; [simpl; now apply set_nth_same |]);
      intros after [-> | ->]; simpl;
      try (split; [apply set_nth_length |]; split; [reflexivity |];
           intros j Hj; now apply set_nth_other).
    repeat split.
  - intros Hout.
    assert (Hnone : Js.index (ResumeModel.experience d) expIndex = None).
    { unfold Js.index. destruct (expIndex <? 0)%Z eqn:Hneg; [reflexivity |].
      apply Z.ltb_ge in Hneg. apply nth_error_None. lia. }
    unfold ResumeGeneratorComponent.call,
      ResumeGeneratorComponent.addResponsibility,
      ResumeGeneratorComponent.removeResponsibility.
    rewrite Hnone. repeat split.
Qed.

(** ** Loading an image back from the history *)

(** X13: an entry stored by a generation that ran with a non-empty prompt
    and style brings exactly that prompt and that style back when it is
    loaded from the history, becomes the displayed image, and leaves the
    history as it is; such an entry is what the generation put at the head
    of the history. *)
Theorem loadFromHistory_restores_generation :
  forall (this st : ImageGenerationComponent.State)
         (response : ImageGenerationComponent.ImageGenerationResponse),
    ImageGenerationComponent.this_prompt this <> "" ->
    ImageGenerationComponent.selectedStyle this <> "" ->
    let entry := ImageGenerationComponent.stamped this response in
    let loaded := ImageGenerationComponent.loadFromHistory entry st in
    nth_error (ImageGenerationComponent.history
                 (ImageGenerationComponent.onNext this response)) 0 = Some entry
    /\ ImageGenerationComponent.this_prompt loaded
       = ImageGenerationComponent.this_prompt this
    /\ ImageGenerationComponent.selectedStyle loaded
       = ImageGenerationComponent.selectedStyle this
    /\ ImageGenerationComponent.generatedImage loaded = Some entry
    /\ ImageGenerationComponent.history loaded = ImageGenerationComponent.history st.
Proof.
  intros this st response Hprompt Hstyle entry loaded.
  split.
  { rewrite onNext_history.
    destruct (length (ImageGenerationComponent.history this) <? 12)%nat; reflexivity. }
  subst loaded entry. unfold ImageGenerationComponent.loadFromHistory.
  cbn [ImageGenerationComponent.stamped ImageGenerationComponent.prompt
       ImageGenerationComponent.style ImageGenerationComponent.this_prompt
       ImageGenerationComponent.selectedStyle ImageGenerationComponent.generatedImage
       ImageGenerationComponent.history].
  rewrite (or_else_present _ _ Hprompt), (or_else_present _ _ Hstyle).
  repeat split.
Qed.

Lemma loadFromHistory_restores_generation_witness :
  ImageGenerationComponent.selectedStyle
    (ImageGenerationComponent.loadFromHistory
       (ImageGenerationComponent.stamped
          (ImageGenerationComponent.step ImageGenerationComponent.initial
             (ImageGenerationComponent.EditPrompt "a lighthouse at dusk"))
          {| ImageGenerationComponent.metadata := None;
             ImageGenerationComponent.image_url := "a.png";
             ImageGenerationComponent.image_filename := None;
             ImageGenerationComponent.image_path := None;
             ImageGenerationComponent.enhanced_prompt := "a lighthouse";
             ImageGenerationComponent.message := "ok";
             ImageGenerationComponent.prompt := None;
             ImageGenerationComponent.generation_time := None;
             ImageGenerationComponent.style := Some "anime";
             ImageGenerationComponent.image_id := None |})
       ImageGenerationComponent.initial)
  = "realistic".
Proof.
  refine (proj1 (proj2 (proj2 (loadFromHistory_restores_generation
            (ImageGenerationComponent.step ImageGenerationComponent.initial
               (ImageGenerationComponent.EditPrompt "a lighthouse at dusk"))
            ImageGenerationComponent.initial _ _ _)))).
  - discriminate.
  - discriminate.
Defined.

(** ** The message of a final failure, for every status *)

Lemma getServerErrorMessage_nonempty (error : Http.HttpErrorResponse) :
  HttpErrorInterceptor.getServerErrorMessage error <> "".
Proof.
  unfold HttpErrorInterceptor.getServerErrorMessage.
  set (detail := Http.detail_of (Http.error error)).
  set (other := Js.number_to_string (Http.status error)).
  destruct (Http.status error) as [|p|p];
    repeat match goal with
           | |- context [match ?q with xI _ => _ | xO _ => _ | xH => _ end] =>
               destruct q
           end;
    try discriminate; apply or_else_nonempty; discriminate.
Qed.

Lemma errorMessage_nonempty (error : Http.HttpErrorResponse) :
  HttpErrorInterceptor.errorMessage error <> "".
Proof.
  unfold HttpErrorInterceptor.errorMessage.
  destruct (Http.error error) as [| m | d]; try apply getServerErrorMessage_nonempty.
  discriminate.
Qed.

Lemma handleError_keeps_message {B : Type} (msg : string) :
  msg <> "" ->
  snd (ApiService.handleError (B := B) (Http.OfError msg)) = Http.OfError msg.
Proof.
  intros Hmsg. unfold ApiService.handleError. simpl.
  apply truthy_iff in Hmsg. now rewrite Hmsg.
Qed.

Lemma outside_the_table (error : Http.HttpErrorResponse) :
  ~ In (Http.status error) [0; 400; 401; 403; 404; 408; 500; 503]%Z ->
  HttpErrorInterceptor.getServerErrorMessage error
  = Js.or_else (Http.detail_of (Http.error error))
      ("Server error: " ++ Js.number_to_string (Http.status error)).
Proof.
  unfold HttpErrorInterceptor.getServerErrorMessage.
  generalize (Http.detail_of (Http.error error)) as detail.
  generalize (Http.status error) as s.
  intros s detail Hout.
  destruct s as [|p|p];
    repeat match goal with
           | |- context [match ?q with xI _ => _ | xO _ => _ | xH => _ end] =>
               destruct q
           end;
    try reflexivity; exfalso; apply Hout; simpl; tauto.
Qed.

(** A call of [post] whose attempt and retry both fail without an event,
    the second time with [e1], before the timeout. *)
Lemma post_fails_twice {B R : Type} (backend : Http.HttpHandler B R)
    (apiUrl endpoint : string) (data : B) (timeoutMs : option N) (fuel : nat)
    (e0 e1 : Http.HttpErrorResponse) :
  let req := {| Http.method := Http.POST;
                Http.url := (apiUrl ++ endpoint)%string;
                Http.body := Some data;
                Http.headers := ApiService.getHeaders |} in
  let final := (Http.dur (backend req 0%nat) + 1000 + Http.dur (backend req 1%nat))%N in
  Http.pre (backend req 0%nat) = [] -> Http.ending (backend req 0%nat) = Http.Fails e0 ->
  Http.pre (backend req 1%nat) = [] -> Http.ending (backend req 1%nat) = Http.Fails e1 ->
  (final < ApiService.timeoutOr timeoutMs)%N ->
  Rx.outcome (ApiService.post (HttpClient.intercepted backend (S (S fuel)))
                apiUrl endpoint data timeoutMs)
  = Rx.Throws final (Http.OfError (HttpErrorInterceptor.errorMessage e1)).
Proof.
  intros req final Hp0 He0 Hp1 He1 Hfinal.
  unfold ApiService.post, HttpClient.intercepted, HttpErrorInterceptor.intercept.
  fold req.
  rewrite (retry_once_without_events req (backend req) fuel e0 e1 Hp0 He0 Hp1 He1).
  fold final.
  unfold Rx.catchError at 2. cbn [Rx.outcome Rx.log HttpErrorInterceptor.onError].
  unfold Rx.timeout. cbn [Rx.outcome].
  apply N.ltb_lt in Hfinal. rewrite Hfinal.
  unfold Rx.catchError. cbn [Rx.outcome].
  rewrite (surjective_pairing (ApiService.handleError _)). cbn [Rx.outcome].
  now rewrite handleError_keeps_message by apply errorMessage_nonempty.
Qed.

(** X14: whatever the status of the error response, the message the
    interceptor computes is non-empty.  For every status outside its table
    (any but 0, 400, 401, 403, 404, 408, 500, 503) the message is a
    non-empty [detail] string of the server's body when there is one and
    "Server error: " followed by the status otherwise.  [ApiService]
    hands the interceptor's message on unchanged: when a request and its
    one retry fail without an event before the timeout, [post] fails with
    exactly the interceptor's message for the second failure. *)
Theorem failure_message_never_empty :
  forall error : Http.HttpErrorResponse,
    HttpErrorInterceptor.errorMessage error <> ""
    /\ (~ In (Http.status error) [0; 400; 401; 403; 404; 408; 500; 503]%Z ->
        (forall d, Http.error error = Http.ServerBody (Some d) -> d <> "" ->
                   HttpErrorInterceptor.errorMessage error = d)
        /\ (Http.error error = Http.NoBody
            \/ Http.error error = Http.ServerBody None
            \/ Http.error error = Http.ServerBody (Some "") ->
            HttpErrorInterceptor.errorMessage error
            = ("Server error: " ++ Js.number_to_string (Http.status error))%string))
    /\ Js.number_to_string 422 = "422"
    /\ (forall (B R : Type) (backend : Http.HttpHandler B R) (fuel : nat)
               (apiUrl endpoint : string) (data : B) (timeoutMs : option N)
               (e0 : Http.HttpErrorResponse),
          let req := {| Http.method := Http.POST;
                        Http.url := (apiUrl ++ endpoint)%string;
                        Http.body := Some data;
                        Http.headers := ApiService.getHeaders |} in
          let final := (Http.dur (backend req 0%nat) + 1000
                        + Http.dur (backend req 1%nat))%N in
          Http.pre (backend req 0%nat) = [] ->
          Http.ending (backend req 0%nat) = Http.Fails e0 ->
          Http.pre (backend req 1%nat) = [] ->
          Http.ending (backend req 1%nat) = Http.Fails error ->
          (final < ApiService.timeoutOr timeoutMs)%N ->
          Rx.outcome (ApiService.post (HttpClient.intercepted backend (S (S fuel)))
                        apiUrl endpoint data timeoutMs)
          = Rx.Throws final (Http.OfError (HttpErrorInterceptor.errorMessage error))).
Proof.
  intros error. split; [apply errorMessage_nonempty |]. split; [| split].
  - intros Hout.
    assert (Hdefault : HttpErrorInterceptor.getServerErrorMessage error
                       = Js.or_else (Http.detail_of (Http.error error))
                           ("Server error: " ++ Js.number_to_string (Http.status error))).
    { now apply outside_the_table. }
    unfold HttpErrorInterceptor.errorMessage. split.
    + intros d Hd Hne. rewrite Hd, Hdefault, Hd. simpl Http.detail_of.
      now apply or_else_present.
    + intros Habsent.
      assert (Hbody : HttpErrorInterceptor.getServerErrorMessage error
                      = ("Server error: " ++ Js.number_to_string (Http.status error))%string).
      { rewrite Hdefault. apply or_else_absent.
        destruct Habsent as [-> | [-> | ->]]; simpl; tauto. }
      destruct Habsent as [Hb | [Hb | Hb]]; rewrite Hb in *; exact Hbody.
  - reflexivity.
  - intros B R backend fuel apiUrl endpoint data timeoutMs e0 req final.
    apply post_fails_twice.
Qed.

(** ** Notifications of a call *)

Lemma notified_in_requests {B : Type} (l : list (N * Rx.Effect B)) :
  Forall Rx.is_request l -> Rx.notified_in l = [].
Proof.
  intros Hl. rewrite <- (app_nil_r l). now rewrite notified_skips_requests.
Qed.

Lemma filter_requests {B : Type} (f : N * Rx.Effect B -> bool)
    (l : list (N * Rx.Effect B)) :
  Forall Rx.is_request l -> Forall Rx.is_request (filter f l).
Proof.
  intros Hl. apply Forall_forall. intros p Hp. apply filter_In in Hp.
  rewrite Forall_forall in Hl. now apply Hl.
Qed.

Lemma retry_throws_http {B R : Type} (config : Rx.RetryConfig)
    (req : Http.HttpRequest B) (source : nat -> Http.Attempt R) (fuel : nat) :
  forall k soFar t t' err,
    Rx.outcome (Rx.retry config req source fuel k soFar t) = Rx.Throws t' err ->
    exists e, err = Http.OfHttp e.
Proof.
  induction fuel as [|fuel IH]; intros k soFar t t' err; [discriminate |].
  cbn [Rx.retry Rx.logged Rx.outcome].
  destruct (Http.ending (source k)) as [r | e |]; try discriminate.
  case_if; [apply IH |]. intros [= _ <-]. now exists e.
Qed.

Lemma handleError_notified {B R : Type} (r : Rx.Run B R) :
  Rx.notified (Rx.catchError ApiService.handleError r) = Rx.notified r.
Proof.
  unfold Rx.notified, Rx.catchError.
  destruct (Rx.outcome r) as [t v | t err | | t]; try reflexivity.
  simpl. unfold Rx.notified_in. rewrite flat_map_app. simpl. apply app_nil_r.
Qed.

(** A call through the interceptor and the wrapper: either nothing was
    notified, or the one message notified is the error the call ends in. *)
Lemma call_notifies_its_error {B R : Type} (backend : Http.HttpHandler B R)
    (fuel : nat) (req : Http.HttpRequest B) (due : N) :
  let run := Rx.catchError ApiService.handleError
               (Rx.timeout due (HttpClient.intercepted backend fuel req)) in
  Rx.notified run = []
  \/ exists t msg, Rx.notified run = [msg]
                   /\ Rx.outcome run = Rx.Throws t (Http.OfError msg).
Proof.
  cbv zeta. rewrite handleError_notified.
  unfold HttpClient.intercepted, HttpErrorInterceptor.intercept.
  set (inner := Rx.retry HttpErrorInterceptor.retryConfig req (backend req) fuel 0 0 0).
  pose proof (retry_log_requests HttpErrorInterceptor.retryConfig req (backend req)
                fuel 0 0 0%N) as Hreqs.
  fold inner in Hreqs.
  assert (Hquiet : forall r : Rx.Run B R,
             Forall Rx.is_request (Rx.log r) ->
             (forall t err, Rx.outcome r <> Rx.Throws t err) ->
             Rx.notified (Rx.timeout due (Rx.catchError HttpErrorInterceptor.onError r))
             = []).
  { intros r Hr Hno.
    assert (Hsame : Rx.catchError HttpErrorInterceptor.onError r = r).
    { unfold Rx.catchError. destruct (Rx.outcome r) as [t v | t err | | t] eqn:Ho;
        try reflexivity. exfalso. now apply (Hno t err). }
    rewrite Hsame. unfold Rx.notified, Rx.timeout.
    destruct (Rx.outcome r) as [t v | t err | | t];
      try destruct (t <? due)%N; cbn [Rx.log];
      apply notified_in_requests; try exact Hr; now apply filter_requests. }
  destruct (Rx.outcome inner) as [t v | t err | | t] eqn:Hout;
    try (left; apply Hquiet; [exact Hreqs | intros t' err'; rewrite Hout; discriminate]).
  destruct (retry_throws_http _ _ _ _ _ _ _ _ _ Hout) as [e ->].
  assert (Hcaught : Rx.catchError HttpErrorInterceptor.onError inner
                    = {| Rx.outcome :=
                           Rx.Throws t (Http.OfError (HttpErrorInterceptor.errorMessage e));
                         Rx.log :=
                           Rx.log inner
                           ++ [(t, Rx.Notify (HttpErrorInterceptor.errorMessage e));
                               (t, Rx.ConsoleError "HTTP Error:"
                                     (HttpErrorInterceptor.errorMessage e))] |}).
  { unfold Rx.catchError. rewrite Hout. reflexivity. }
  rewrite Hcaught. unfold Rx.timeout. cbn [Rx.outcome Rx.log].
  destruct (t <? due)%N eqn:Hlt.
  - right. exists t, (HttpErrorInterceptor.errorMessage e). split.
    + unfold Rx.notified. cbn [Rx.log].
      now rewrite (notified_skips_requests _ _ Hreqs).
    + unfold Rx.catchError. cbn [Rx.outcome].
      rewrite (surjective_pairing (ApiService.handleError _)). cbn [Rx.outcome].
      now rewrite handleError_keeps_message by apply errorMessage_nonempty.
  - left. unfold Rx.notified. cbn [Rx.log].
    rewrite filter_app. cbn [filter fst]. rewrite Hlt. rewrite app_nil_r.
    apply notified_in_requests. now apply filter_requests.
Qed.

(** X15: a call through [ApiService.post] and the interceptor pushes at
    most one notification; a call that delivers its response pushes none;
    and when one is pushed, its message is the message of the error the
    call ends in, so the notification and the caller's error text agree. *)
Theorem at_most_one_notification :
  forall (B R : Type) (backend : Http.HttpHandler B R) (fuel : nat)
         (apiUrl endpoint : string) (data : B) (timeoutMs : option N),
    let run := ApiService.post (HttpClient.intercepted backend fuel)
                 apiUrl endpoint data timeoutMs in
    length (Rx.notified run) <= 1
    /\ (forall t v, Rx.outcome run = Rx.Emits t v -> Rx.notified run = [])
    /\ (forall msg, In msg (Rx.notified run) ->
          exists t, Rx.outcome run = Rx.Throws t (Http.OfError msg)).
Proof.
  intros B R backend fuel apiUrl endpoint data timeoutMs run. subst run.
  unfold ApiService.post.
  destruct (call_notifies_its_error backend fuel
              {| Http.method := Http.POST; Http.url := (apiUrl ++ endpoint)%string;
                 Http.body := Some data; Http.headers := ApiService.getHeaders |}
              (ApiService.timeoutOr timeoutMs)) as [Hnone | (t & msg & Hone & Hout)].
  - rewrite Hnone. split; [simpl; lia |]. split; [reflexivity | intros msg []].
  - rewrite Hone. split; [simpl; lia |]. split.
    + intros t' v Hv. rewrite Hv in Hout. discriminate.
    + intros msg' [<- | []]. now exists t.
Qed.

(** ** A failure that the retry repairs *)

Lemma retry_then_answered {B R : Type} (req : Http.HttpRequest B)
    (source : nat -> Http.Attempt R) (fuel : nat) (e0 : Http.HttpErrorResponse)
    (response : R) :
  Http.pre (source 0%nat) = [] -> Http.ending (source 0%nat) = Http.Fails e0 ->
  Http.ending (source 1%nat) = Http.Responds response ->
  Rx.retry HttpErrorInterceptor.retryConfig req source (S (S fuel)) 0 0 0
  = {| Rx.outcome :=
         Rx.Emits (Http.dur (source 0%nat) + 1000 + Http.dur (source 1%nat)) response;
       Rx.log := [(0%N, Rx.Request 0 req);
                  ((Http.dur (source 0%nat) + 1000)%N, Rx.Request 1 req)] |}.
Proof.
  intros Hp0 He0 He1.
  cbn [Rx.retry]. rewrite Hp0, He0. cbn [HttpErrorInterceptor.retryConfig
    Rx.count Rx.delay Nat.ltb Nat.leb]. rewrite He1. reflexivity.
Qed.

Lemma analyze_repaired {R : Type}
    (backend : Http.HttpHandler AtsService.ATSRequest R) (apiUrl : string)
    (request : AtsService.ATSRequest) (fuel : nat) (e0 : Http.HttpErrorResponse)
    (response : R) :
  let req := {| Http.method := Http.POST;
                Http.url := (apiUrl ++ "/ats/analyze")%string;
                Http.body := Some request;
                Http.headers := ApiService.getHeaders |} in
  let final := (Http.dur (backend req 0%nat) + 1000 + Http.dur (backend req 1%nat))%N in
  Http.pre (backend req 0%nat) = [] -> Http.ending (backend req 0%nat) = Http.Fails e0 ->
  Http.ending (backend req 1%nat) = Http.Responds response ->
  (final < 120000)%N ->
  AtsService.analyzeResume (HttpClient.intercepted backend (S (S fuel))) apiUrl request
  = {| Rx.outcome := Rx.Emits final response;
       Rx.log := [(0%N, Rx.Request 0 req);
                  ((Http.dur (backend req 0%nat) + 1000)%N, Rx.Request 1 req)] |}.
Proof.
  intros req final Hp0 He0 He1 Hfinal.
  unfold AtsService.analyzeResume, ApiService.post, HttpClient.intercepted,
    HttpErrorInterceptor.intercept.
  fold req.
  rewrite (retry_then_answered req (backend req) fuel e0 response Hp0 He0 He1).
  fold final.
  unfold Rx.catchError at 2. cbn [Rx.outcome].
  unfold Rx.timeout. cbn [Rx.outcome].
  apply N.ltb_lt in Hfinal.
  change (ApiService.timeoutOr None) with 120000%N. rewrite Hfinal.
  reflexivity.
Qed.

(** X16: when the first attempt of an analysis fails without an event and
    the retry, sent 1000 ms after the failure, is answered before the
    timeout, the component ends with the response as its result, no error
    text and the loading flag down; two requests were sent and nothing was
    notified or logged: the user never sees the first failure. *)
Theorem transient_failure_is_invisible :
  forall (R : Type) (backend : Http.HttpHandler AtsService.ATSRequest R)
         (apiUrl : string) (this : AtsAnalyzerComponent.State R) (fuel : nat)
         (e0 : Http.HttpErrorResponse) (response : R),
    AtsAnalyzerComponent.resumeText this <> "" ->
    AtsAnalyzerComponent.jobDescription this <> "" ->
    let req :=
      {| Http.method := Http.POST;
         Http.url := (apiUrl ++ "/ats/analyze")%string;
         Http.body :=
           Some {| AtsService.resume_text := AtsAnalyzerComponent.resumeText this;
                   AtsService.job_description :=
                     AtsAnalyzerComponent.jobDescription this |};
         Http.headers := [("Content-Type", "application/json")] |} in
    let first := backend req 0%nat in
    let second := backend req 1%nat in
    Http.pre first = [] -> Http.ending first = Http.Fails e0 ->
    Http.ending second = Http.Responds response ->
    (Http.dur first + 1000 + Http.dur second < 120000)%N ->
    AtsAnalyzerComponent.analyzeResume
      (HttpClient.intercepted backend (S (S fuel))) apiUrl this
    = ({| AtsAnalyzerComponent.resumeText := AtsAnalyzerComponent.resumeText this;
          AtsAnalyzerComponent.jobDescription := AtsAnalyzerComponent.jobDescription this;
          AtsAnalyzerComponent.loading := false;
          AtsAnalyzerComponent.error := "";
          AtsAnalyzerComponent.result := Some response |},
       [(0%N, Rx.Request 0 req); ((Http.dur first + 1000)%N, Rx.Request 1 req)]).
Proof.
  intros R backend apiUrl this fuel e0 response Hresume Hjob req first second
    Hp0 He0 He1 Hfinal.
  unfold AtsAnalyzerComponent.analyzeResume.
  apply truthy_iff in Hresume. apply truthy_iff in Hjob.
  rewrite Hresume, Hjob. cbn [negb orb].
  subst first second req.
  rewrite (analyze_repaired backend apiUrl _ fuel e0 response Hp0 He0 He1 Hfinal).
  reflexivity.
Qed.

Lemma transient_failure_is_invisible_witness :
  AtsAnalyzerComponent.analyzeResume
    (HttpClient.intercepted
       (fun _ k =>
          match k with
          | O => {| Http.pre := []; Http.dur := 50;
                    Http.ending := Http.Fails Scenarios.internalServerError |}
          | S _ => {| Http.pre := [Http.Sent]; Http.dur := 900;
                      Http.ending := Http.Responds tt |}
          end) 2)
    "http://localhost:8000" Scenarios.filledForm
  = ({| AtsAnalyzerComponent.resumeText := "Ten years of Rocq";
        AtsAnalyzerComponent.jobDescription := "Proof engineer";
        AtsAnalyzerComponent.loading := false;
        AtsAnalyzerComponent.error := "";
        AtsAnalyzerComponent.result := Some tt |},
     [(0%N, Rx.Request 0 Scenarios.analyzeRequest);
      (1050%N, Rx.Request 1 Scenarios.analyzeRequest)]).
Proof.
  refine (transient_failure_is_invisible unit _ "http://localhost:8000"
            Scenarios.filledForm 0 Scenarios.internalServerError tt _ _ _ _ _ _).
  - discriminate.
  - discriminate.
  - reflexivity.
  - reflexivity.
  - reflexivity.
  - reflexivity.
Defined.

(** ** How many requests a call can send *)

Lemma requests_logged {B R : Type} (t : N) (k : nat) (req : Http.HttpRequest B)
    (r : Rx.Run B R) :
  Rx.requests (Rx.logged t (Rx.Request k req) r) = (t, k) :: Rx.requests r.
Proof.
  reflexivity.
Qed.

Lemma handler_requests {B R : Type} (r : Rx.Run B R) :
  Rx.requests (Rx.catchError HttpErrorInterceptor.onError r) = Rx.requests r.
Proof.
  unfold Rx.requests, Rx.catchError.
  destruct (Rx.outcome r) as [t v | t err | | t]; try reflexivity.
  simpl. rewrite requests_in_app. simpl. apply app_nil_r.
Qed.

(** X17: when no attempt emits an event before it fails, the interceptor
    retries once and no more: it sends at most two requests however many
    attempts it is allowed, and it ends (with a value, an error, or a
    request left unanswered) instead of retrying on. *)
Theorem no_event_at_most_two_requests :
  forall (B R : Type) (request : Http.HttpRequest B) (next : Http.HttpHandler B R)
         (fuel : nat),
    (forall k e, Http.ending (next request k) = Http.Fails e ->
                 Http.pre (next request k) = []) ->
    let run := HttpErrorInterceptor.intercept request next (2 + fuel) in
    length (Rx.requests run) <= 2
    /\ (forall t, Rx.outcome run <> Rx.Unfinished t)
    /\ (forall e0, Http.ending (next request 0%nat) = Http.Fails e0 ->
          Rx.requests run
          = [(0%N, 0%nat); ((Http.dur (next request 0%nat) + 1000)%N, 1%nat)]).
Proof.
  intros B R request next fuel Hquiet run. subst run.
  unfold HttpErrorInterceptor.intercept.
  assert (Hnot : forall (r : Rx.Run B R) t,
             (forall t', Rx.outcome r <> Rx.Unfinished t') ->
             Rx.outcome (Rx.catchError HttpErrorInterceptor.onError r)
             <> Rx.Unfinished t).
  { intros r t Hr Hu. apply catchError_unfinished in Hu. now apply (Hr t). }
  rewrite handler_requests.
  change (2 + fuel) with (S (S fuel)). cbn [Rx.retry].
  destruct (Http.ending (next request 0%nat)) as [r0 | e0 |] eqn:He0.
  - split; [simpl; lia |]. split; [| discriminate].
    intros t. apply Hnot. discriminate.
  - rewrite (Hquiet 0%nat e0 He0).
    cbn [HttpErrorInterceptor.retryConfig Rx.count Rx.delay Nat.ltb Nat.leb].
    destruct (Http.ending (next request 1%nat)) as [r1 | e1 |] eqn:He1.
    + split; [simpl; lia |]. split; [| intros e [= <-]; reflexivity].
      intros t. apply Hnot. discriminate.
    + rewrite (Hquiet 1%nat e1 He1).
      split; [simpl; lia |]. split; [| intros e [= <-]; reflexivity].
      intros t. apply Hnot. discriminate.
    + split; [simpl; lia |]. split; [| intros e [= <-]; reflexivity].
      intros t. apply Hnot. discriminate.
  - split; [simpl; lia |]. split; [| discriminate].
    intros t. apply Hnot. discriminate.
Qed.

Lemma no_event_at_most_two_requests_witness :
  length (Rx.requests
            (HttpErrorInterceptor.intercept (R := unit) Scenarios.analyzeRequest
               (Scenarios.failsSilently Scenarios.internalServerError) (2 + 40)))
  <= 2.
Proof.
  refine (proj1 (no_event_at_most_two_requests _ unit Scenarios.analyzeRequest
                   (Scenarios.failsSilently Scenarios.internalServerError) 40 _)).
  intros k e _. reflexivity.
Defined.

Lemma filter_none_early (due : N) (l : list (N * nat)) :
  Forall (fun p => (due <= fst p)%N) l ->
  filter (fun p => (fst p <? due)%N) l = [].
Proof.
  induction 1 as [|p l Hp Hl IH]; simpl; [reflexivity |].
  replace (fst p <? due)%N with false by (symmetry; apply N.ltb_ge; exact Hp).
  exact IH.
Qed.

Lemma spaced_later {gap : N} (l : list (N * nat)) :
  forall k t t', (t' <= t)%N -> Schedule.spaced gap k t l -> Schedule.spaced gap k t' l.
Proof.
  destruct l as [|[t0 k0] rest]; intros k t t' Hle; simpl; [tauto |].
  intros (Hk & Ht & Hrest). repeat split; [exact Hk | lia | exact Hrest].
Qed.

Lemma retry_spaced {B R : Type} (config : Rx.RetryConfig)
    (req : Http.HttpRequest B) (source : nat -> Http.Attempt R) (fuel : nat) :
  forall k soFar t,
    Schedule.spaced (Rx.delay config) k t
      (Rx.requests (Rx.retry config req source fuel k soFar t)).
Proof.
  induction fuel as [|fuel IH]; intros k soFar t; [exact I |].
  cbn [Rx.retry]. rewrite requests_logged. simpl.
  split; [reflexivity |]. split; [lia |].
  destruct (Http.ending (source k)) as [r | e |]; try exact I.
  case_if; [| exact I].
  eapply spaced_later; [| apply IH]. lia.
Qed.

Lemma spaced_not_before {gap : N} (l : list (N * nat)) :
  forall k t, Schedule.spaced gap k t l -> Forall (fun p => (t <= fst p)%N) l.
Proof.
  induction l as [|[t0 k0] rest IH]; intros k t; simpl; [constructor |].
  intros (_ & Ht & Hrest). constructor; [exact Ht |].
  apply IH in Hrest. eapply Forall_impl; [| exact Hrest]. simpl. intros p Hp. lia.
Qed.

(** Of requests spaced by [gap], those sent before [due] are few. *)
Lemma spaced_count {gap : N} (due : N) (l : list (N * nat)) :
  forall k t,
    Schedule.spaced gap k t l ->
    let early := length (filter (fun p => (fst p <? due)%N) l) in
    early = 0 \/ (t + N.of_nat early * gap < due + gap)%N.
Proof.
  induction l as [|[t0 k0] rest IH]; intros k t; simpl; [now left |].
  intros (_ & Ht & Hrest).
  destruct (t0 <? due)%N eqn:Hearly.
  - apply N.ltb_lt in Hearly. right. simpl length.
    destruct (IH _ _ Hrest) as [Hzero | Hbound]; cbv zeta in *.
    + rewrite Hzero. lia.
    + lia.
  - apply N.ltb_ge in Hearly. left.
    apply spaced_not_before in Hrest.
    rewrite filter_none_early; [reflexivity |].
    eapply Forall_impl; [| exact Hrest]. simpl. intros p Hp. lia.
Qed.

Lemma requests_in_filter_time {B : Type} (due : N) (l : list (N * Rx.Effect B)) :
  Rx.requests_in (filter (fun p => (fst p <? due)%N) l)
  = filter (fun p => (fst p <? due)%N) (Rx.requests_in l).
Proof.
  unfold Rx.requests_in.
  induction l as [|[t e] l IH]; simpl; [reflexivity |].
  destruct (t <? due)%N eqn:Ht; destruct e; simpl; rewrite ?Ht, IH; reflexivity.
Qed.

Lemma retry_requests_before_outcome {B R : Type} (config : Rx.RetryConfig)
    (req : Http.HttpRequest B) (source : nat -> Http.Attempt R) (fuel : nat) :
  forall k soFar t,
    let run := Rx.retry config req source fuel k soFar t in
    match Rx.outcome run with
    | Rx.Emits t' _ | Rx.Throws t' _ | Rx.Unfinished t' =>
        Forall (fun p => (fst p <= t')%N) (Rx.requests run)
    | Rx.Silent => True
    end.
Proof.
  induction fuel as [|fuel IH]; intros k soFar t; cbv zeta; [constructor |].
  cbn [Rx.retry]. rewrite requests_logged.
  destruct (logged_request t k req
              match Http.ending (source k) with
              | Http.Responds r =>
                  {| Rx.outcome := Rx.Emits (t + Http.dur (source k)) r; Rx.log := [] |}
              | Http.Fails e =>
                  if (match Http.pre (source k) with
                      | [] => soFar
                      | _ :: _ => if Rx.resetOnSuccess config then 0%nat else soFar
                      end <? Rx.count config)%nat
                  then Rx.retry config req source fuel (S k)
                         (S match Http.pre (source k) with
                            | [] => soFar
                            | _ :: _ => if Rx.resetOnSuccess config then 0%nat else soFar
                            end)
                         (t + Http.dur (source k) + Rx.delay config)
                  else {| Rx.outcome := Rx.Throws (t + Http.dur (source k)) (Http.OfHttp e);
                          Rx.log := [] |}
              | Http.Hangs => {| Rx.outcome := Rx.Silent; Rx.log := [] |}
              end) as (Eout & _ & _).
  rewrite Eout. clear Eout.
  destruct (Http.ending (source k)) as [r | e |].
  - simpl. constructor; [simpl; lia | constructor].
  - case_if.
    + match goal with
      | |- context [Rx.retry config req source fuel (S k) ?x _] => set (soFar' := x)
      end.
      pose proof (IH (S k) soFar' (t + Http.dur (source k) + Rx.delay config)%N) as Hrest.
      pose proof (retry_not_before config req source fuel (S k) soFar'
                    (t + Http.dur (source k) + Rx.delay config)%N) as [_ Hstart].
      cbv zeta in Hrest.
      destruct (Rx.outcome (Rx.retry config req source fuel (S k) soFar'
                              (t + Http.dur (source k) + Rx.delay config)));
        cbv iota in *; try exact I; (constructor; [simpl; lia | exact Hrest]).
    + simpl. constructor; [simpl; lia | constructor].
  - exact I.
Qed.

Lemma call_requests {B R : Type} (backend : Http.HttpHandler B R)
    (fuel : nat) (req : Http.HttpRequest B) (due : N) :
  Rx.requests (Rx.catchError ApiService.handleError
                 (Rx.timeout due (HttpClient.intercepted backend fuel req)))
  = filter (fun p => (fst p <? due)%N)
      (Rx.requests (Rx.retry HttpErrorInterceptor.retryConfig req (backend req)
                      fuel 0 0 0)).
Proof.
  rewrite handleError_requests.
  unfold HttpClient.intercepted, HttpErrorInterceptor.intercept.
  set (inner := Rx.retry HttpErrorInterceptor.retryConfig req (backend req) fuel 0 0 0).
  pose proof (retry_requests_before_outcome HttpErrorInterceptor.retryConfig req
                (backend req) fuel 0 0 0%N) as Hbefore.
  cbv zeta in Hbefore. fold inner in Hbefore.
  assert (Hexpired : Rx.requests_in
                       (filter (fun p => (fst p <? due)%N)
                          (Rx.log (Rx.catchError HttpErrorInterceptor.onError inner)))
                     = filter (fun p => (fst p <? due)%N) (Rx.requests inner)).
  { rewrite requests_in_filter_time. f_equal. apply handler_requests. }
  assert (Hkept : forall t, (t <? due)%N = true ->
             Forall (fun p => (fst p <= t)%N) (Rx.requests inner) ->
             Rx.requests (Rx.catchError HttpErrorInterceptor.onError inner)
             = filter (fun p => (fst p <? due)%N) (Rx.requests inner)).
  { intros t Ht Hall. rewrite handler_requests. symmetry.
    apply forallb_filter_id, forallb_forall. intros p Hp.
    rewrite Forall_forall in Hall. specialize (Hall p Hp).
    apply N.ltb_lt in Ht. apply N.ltb_lt. lia. }
  unfold Rx.timeout.
  destruct (Rx.outcome inner) as [t v | t err | | t] eqn:Hout.
  - assert (Ho : Rx.outcome (Rx.catchError HttpErrorInterceptor.onError inner)
                 = Rx.Emits t v) by (unfold Rx.catchError; now rewrite Hout).
    rewrite Ho. destruct (t <? due)%N eqn:Ht; [now apply (Hkept t) | exact Hexpired].
  - assert (Ho : exists err', Rx.outcome (Rx.catchError HttpErrorInterceptor.onError inner)
                              = Rx.Throws t err').
    { unfold Rx.catchError. rewrite Hout. eexists. reflexivity. }
    destruct Ho as [err' Ho]. rewrite Ho.
    destruct (t <? due)%N eqn:Ht; [now apply (Hkept t) | exact Hexpired].
  - assert (Ho : Rx.outcome (Rx.catchError HttpErrorInterceptor.onError inner)
                 = Rx.Silent) by (unfold Rx.catchError; now rewrite Hout).
    rewrite Ho. exact Hexpired.
  - assert (Ho : Rx.outcome (Rx.catchError HttpErrorInterceptor.onError inner)
                 = Rx.Unfinished t) by (unfold Rx.catchError; now rewrite Hout).
    rewrite Ho. destruct (t <? due)%N eqn:Ht; [now apply (Hkept t) | exact Hexpired].
Qed.

(** X18: the retries of a call are bounded by its timeout: the interceptor
    waits 1000 ms before each resubscription, so a call through
    [ApiService.post] sends fewer than (timeout + 1000) / 1000 requests,
    whatever the back end does and however it fails; with the default
    timeout that is at most 120 requests, for the image generation at most
    300. *)
Theorem requests_bounded_by_timeout :
  forall (B R : Type) (backend : Http.HttpHandler B R) (fuel : nat)
         (apiUrl endpoint : string) (data : B) (timeoutMs : option N),
    let sent timeoutMs :=
      length (Rx.requests (ApiService.post (HttpClient.intercepted backend fuel)
                             apiUrl endpoint data timeoutMs)) in
    (N.of_nat (sent timeoutMs) * 1000 < ApiService.timeoutOr timeoutMs + 1000)%N
    /\ sent None <= 120
    /\ sent (Some 300000%N) <= 300.
Proof.
  intros B R backend fuel apiUrl endpoint data timeoutMs sent.
  assert (Hgen : forall ms, (N.of_nat (sent ms) * 1000 < ApiService.timeoutOr ms + 1000)%N).
  { intros ms. subst sent. cbv beta. unfold ApiService.post. rewrite call_requests.
    pose proof (retry_spaced HttpErrorInterceptor.retryConfig
                  {| Http.method := Http.POST; Http.url := (apiUrl ++ endpoint)%string;
                     Http.body := Some data; Http.headers := ApiService.getHeaders |}
                  (backend
                     {| Http.method := Http.POST; Http.url := (apiUrl ++ endpoint)%string;
                        Http.body := Some data; Http.headers := ApiService.getHeaders |})
                  fuel 0 0 0%N) as Hspaced.
    apply (spaced_count (ApiService.timeoutOr ms)) in Hspaced. cbv zeta in Hspaced.
    cbn [HttpErrorInterceptor.retryConfig Rx.delay] in Hspaced.
    destruct Hspaced as [-> | Hbound]; lia. }
  split; [apply Hgen |]. split.
  - specialize (Hgen None). change (ApiService.timeoutOr None) with 120000%N in Hgen. lia.
  - specialize (Hgen (Some 300000%N)).
    change (ApiService.timeoutOr (Some 300000%N)) with 300000%N in Hgen. lia.
Qed.

(** ** What a failed call shows *)

Lemma handleError_nonempty {B : Type} (err : Http.Thrown) :
  exists msg, snd (ApiService.handleError (B := B) err) = Http.OfError msg /\ msg <> "".
Proof.
  unfold ApiService.handleError.
  destruct (Http.thrown_error err) as [| m | d]; cbn [snd].
  - eexists. split; [reflexivity |]. cbn [Http.detail_of Js.or_else].
    destruct (Js.truthy (Http.thrown_message err)) eqn:Hm;
      [now apply truthy_iff | discriminate].
  - eexists. split; [reflexivity | discriminate].
  - eexists. split; [reflexivity |]. apply or_else_nonempty.
    cbn [Js.or_else].
    destruct (Js.truthy (Http.thrown_message err)) eqn:Hm;
      [now apply truthy_iff | discriminate].
Qed.

Lemma wrapper_throws_message {B R : Type} (r : Rx.Run B R) (t : N) (err : Http.Thrown) :
  Rx.outcome (Rx.catchError ApiService.handleError r) = Rx.Throws t err ->
  exists msg, err = Http.OfError msg /\ msg <> "".
Proof.
  unfold Rx.catchError.
  destruct (Rx.outcome r) as [t0 v | t0 e | | t0] eqn:Hout;
    try (rewrite Hout; discriminate).
  destruct (handleError_nonempty (B := B) e) as (msg & Hmsg & Hne).
  rewrite (surjective_pairing (ApiService.handleError e)), Hmsg.
  cbn [Rx.outcome]. intros [= _ <-]. now exists msg.
Qed.

(** X19: whatever client it is given, a call of [ApiService] that fails
    fails with an [Error] whose message is non-empty; so when an analysis
    or a resume generation fails, the component shows exactly that message
    and lowers its loading flag; the fallback texts of the components
    ("Analysis failed...", "Resume generation failed...") are not needed. *)
Theorem failed_call_shows_wrapper_message :
  forall (R : Type) (apiUrl : string),
    (forall (http : HttpClient.Client AtsService.ATSRequest R)
            (this : AtsAnalyzerComponent.State R) (t : N) (err : Http.Thrown),
       AtsAnalyzerComponent.resumeText this <> "" ->
       AtsAnalyzerComponent.jobDescription this <> "" ->
       Rx.outcome
         (AtsService.analyzeResume http apiUrl
            {| AtsService.resume_text := AtsAnalyzerComponent.resumeText this;
               AtsService.job_description := AtsAnalyzerComponent.jobDescription this |})
       = Rx.Throws t err ->
       let after := fst (AtsAnalyzerComponent.analyzeResume http apiUrl this) in
       AtsAnalyzerComponent.error after = Http.thrown_message err
       /\ AtsAnalyzerComponent.error after <> ""
       /\ AtsAnalyzerComponent.loading after = false
       /\ AtsAnalyzerComponent.result after = AtsAnalyzerComponent.result this)
    /\ (forall (http : HttpClient.Client ResumeModel.ResumeRequest R)
               (this : ResumeSubmit.State R) (t : N) (err : Http.Thrown),
          ResumeSubmit.isFormValid (ResumeSubmit.resumeData this)
            (ResumeSubmit.skillsInput this) = true ->
          Rx.outcome
            (ResumeService.generateResume http apiUrl
               (ResumeSubmit.with_skills (ResumeSubmit.resumeData this)
                  (ResumeSubmit.parseSkills (ResumeSubmit.skillsInput this))))
          = Rx.Throws t err ->
          let after := fst (ResumeSubmit.generateResume http apiUrl this) in
          ResumeSubmit.error after = Http.thrown_message err
          /\ ResumeSubmit.error after <> ""
          /\ ResumeSubmit.loading after = false
          /\ ResumeSubmit.result after = ResumeSubmit.result this).
Proof.
  intros R apiUrl. split.
  - intros http this t err Hresume Hjob Hout after. subst after.
    unfold AtsAnalyzerComponent.analyzeResume.
    apply truthy_iff in Hresume. apply truthy_iff in Hjob.
    rewrite Hresume, Hjob. cbn [negb orb]. rewrite Hout. cbn [fst].
    destruct (wrapper_throws_message _ _ _ Hout) as (msg & -> & Hne).
    cbn [AtsAnalyzerComponent.error AtsAnalyzerComponent.loading
         AtsAnalyzerComponent.result Http.thrown_message].
    rewrite (or_else_present _ _ Hne). repeat split. exact Hne.
  - intros http this t err Hvalid Hout after. subst after.
    unfold ResumeSubmit.generateResume. rewrite Hvalid. cbn [negb].
    rewrite Hout. cbn [fst].
    destruct (wrapper_throws_message _ _ _ Hout) as (msg & -> & Hne).
    cbn [ResumeSubmit.error ResumeSubmit.loading ResumeSubmit.result
         Http.thrown_message].
    rewrite (or_else_present _ _ Hne). repeat split. exact Hne.
Qed.

(** ** A call and the notification queue *)

Lemma replay_of_notified {B : Type} (generateId : nat -> string)
    (l : list (N * Rx.Effect B)) :
  forall (k : nat) (st : NotificationService.State),
    (Rx.notified_in l = [] -> Effects.replay generateId k l st = st)
    /\ (forall msg, Rx.notified_in l = [msg] ->
          NotificationService.notifications (Effects.replay generateId k l st)
          = NotificationService.notifications st
            ++ [{| NotificationService.id := generateId k;
                   NotificationService.type := NotificationService.Error;
                   NotificationService.message := msg;
                   NotificationService.duration := Some 7000%N |}]).
Proof.
  unfold Rx.notified_in.
  induction l as [|[t e] l IH]; intros k st; simpl.
  - split; [reflexivity | discriminate].
  - destruct e as [k0 req | m | label m]; simpl.
    + apply IH.
    + split; [discriminate |]. intros msg [= <- Hrest].
      destruct (IH (S k) (NotificationService.error m t (generateId k) st))
        as [Hnone _].
      rewrite (Hnone Hrest). reflexivity.
    + apply IH.
Qed.

(** X20: performed on the notification service, a call through
    [ApiService.post] and the interceptor leaves the queue as it was or
    appends one notification to it, of type error, with the 7000 ms
    duration and the message of the error the call ends in; the
    notifications already queued keep their place. *)
Theorem call_appends_at_most_one :
  forall (B R : Type) (backend : Http.HttpHandler B R) (fuel : nat)
         (apiUrl endpoint : string) (data : B) (timeoutMs : option N)
         (generateId : nat -> string) (st : NotificationService.State),
    let run := ApiService.post (HttpClient.intercepted backend fuel)
                 apiUrl endpoint data timeoutMs in
    let after := NotificationService.notifications
                   (Effects.replay generateId 0 (Rx.log run) st) in
    after = NotificationService.notifications st
    \/ exists t msg,
         Rx.outcome run = Rx.Throws t (Http.OfError msg)
         /\ after = NotificationService.notifications st
                    ++ [{| NotificationService.id := generateId 0%nat;
                           NotificationService.type := NotificationService.Error;
                           NotificationService.message := msg;
                           NotificationService.duration := Some 7000%N |}].
Proof.
  intros B R backend fuel apiUrl endpoint data timeoutMs generateId st run after.
  subst after run. unfold ApiService.post.
  destruct (call_notifies_its_error backend fuel
              {| Http.method := Http.POST; Http.url := (apiUrl ++ endpoint)%string;
                 Http.body := Some data; Http.headers := ApiService.getHeaders |}
              (ApiService.timeoutOr timeoutMs)) as [Hnone | (t & msg & Hone & Hout)];
    unfold Rx.notified in *.
  - left. destruct (replay_of_notified generateId (Rx.log
        (Rx.catchError ApiService.handleError
           (Rx.timeout (ApiService.timeoutOr timeoutMs)
              (HttpClient.intercepted backend fuel
                 {| Http.method := Http.POST; Http.url := (apiUrl ++ endpoint)%string;
                    Http.body := Some data; Http.headers := ApiService.getHeaders |}))))
        0%nat st) as [Hsame _].
    now rewrite (Hsame Hnone).
  - right. exists t, msg. split; [exact Hout |].
    now apply replay_of_notified.
Qed.

(** ** The prompt of an image generation *)

Lemma blank_iff (s : string) :
  Js.blank s = false <-> exists c, In c (list_ascii_of_string s) /\ Js.is_white c = false.
Proof.
  unfold Js.blank. split.
  - intros Hb. induction (list_ascii_of_string s) as [|c l IH]; simpl in Hb;
      [discriminate |].
    destruct (Js.is_white c) eqn:Hc.
    + destruct (IH Hb) as [c' [Hin Hw]]. exists c'. split; [now right | exact Hw].
    + exists c. split; [now left | exact Hc].
  - intros [c [Hin Hw]].
    destruct (forallb Js.is_white (list_ascii_of_string s)) eqn:Hall; [| reflexivity].
    rewrite forallb_forall in Hall. rewrite (Hall c Hin) in Hw. discriminate.
Qed.

(** X21: [generateImage] hands a request to the image service exactly when
    the prompt has a character that [trim()] does not strip, that is one
    other than tab, line feed, vertical tab, form feed, carriage return,
    space and no-break space; the request then carries the prompt as typed
    (not trimmed), the selected style and a 1024 by 1024 size; a prompt
    without such a character only sets "Please enter a prompt".  Either way
    the history and the displayed image are not touched by the call
    itself. *)
Theorem generateImage_needs_a_prompt :
  forall this : ImageGenerationComponent.State,
    let after := fst (ImageGenerationComponent.generateImage this) in
    let request := snd (ImageGenerationComponent.generateImage this) in
    (request <> None <->
     exists c, In c (list_ascii_of_string (ImageGenerationComponent.this_prompt this))
               /\ ~ In (nat_of_ascii c) [9; 10; 11; 12; 13; 32; 160])
    /\ (forall r, request = Some r ->
          ImageService.prompt r = ImageGenerationComponent.this_prompt this
          /\ ImageService.style r = ImageGenerationComponent.selectedStyle this
          /\ ImageService.width r = Some 1024%Z
          /\ ImageService.height r = Some 1024%Z
          /\ ImageGenerationComponent.loading after = true
          /\ ImageGenerationComponent.error after = "")
    /\ (request = None ->
        ImageGenerationComponent.error after = "Please enter a prompt"
        /\ ImageGenerationComponent.loading after
           = ImageGenerationComponent.loading this)
    /\ ImageGenerationComponent.history after = ImageGenerationComponent.history this
    /\ ImageGenerationComponent.generatedImage after
       = ImageGenerationComponent.generatedImage this.
Proof.
  intros this after request. subst after request.
  assert (Hblank : Js.blank (ImageGenerationComponent.this_prompt this) = false <->
                   exists c,
                     In c (list_ascii_of_string (ImageGenerationComponent.this_prompt this))
                     /\ ~ In (nat_of_ascii c) [9; 10; 11; 12; 13; 32; 160]).
  { rewrite blank_iff. split; intros [c [Hin Hc]]; exists c; (split; [exact Hin |]).
    - intros Hw. apply is_white_iff in Hw. congruence.
    - destruct (Js.is_white c) eqn:Hw; [| reflexivity].
      exfalso. now apply Hc, is_white_iff. }
  unfold ImageGenerationComponent.generateImage.
  destruct (Js.blank (ImageGenerationComponent.this_prompt this)) eqn:Hb; simpl.
  - split.
    + split; [intros Hn; now contradiction Hn |].
      intros Hex. apply Hblank in Hex. discriminate.
    + split; [intros r Hr; discriminate |]. repeat split.
  - split.
    + split; [intros _; now apply Hblank | discriminate].
    + split; [intros r [= <-]; repeat split |].
      split; [discriminate | split; reflexivity].
Qed.
